(** * pyqiwi: the payment-form link encoder and the wallet accessors

    A shallow embedding of [src/pyqiwi/__init__.py]:
    - [generate_form_link], the encoder of the auto-filled payment form URL;
    - [Wallet.balance], the lookup of a usable balance among the accounts;
    - [Wallet.identification], which adds the caller's tax id to the response;
    - [Wallet.__init__], as far as it normalises the wallet number.

    The modules [util], [types] and [apihelper] of the package are missing
    from the sources.  What the embedded functions need from them is either
    modelled from the specification (and marked so) or taken as a parameter. *)

From Stdlib Require Import Ascii QArith Qround.
From stdpp Require Import base strings pretty list gmap.

Local Open Scope Z_scope.

(** ** Python values *)

(** The scalar values that reach the encoder: [None], booleans, integers and
    strings.  Amounts are kept apart, as exact rationals (see [split_float]). *)
Inductive pyval : Type :=
  | PNone
  | PBool (b : bool)
  | PInt (z : Z)
  | PStr (s : string).

(** [bool(v)], what [if v:] tests. *)
Definition truthy (v : pyval) : bool :=
  match v with
  | PNone => false
  | PBool b => b
  | PInt z => negb (z =? 0)
  | PStr s => negb (String.eqb s "")
  end.

(** [str(v)]. *)
Definition py_str (v : pyval) : string :=
  match v with
  | PNone => "None"
  | PBool true => "True"
  | PBool false => "False"
  | PInt z => pretty z
  | PStr s => s
  end.

(** [v == n] for an integer literal [n]: booleans are integers in Python. *)
Definition py_eq_int (v : pyval) (n : Z) : bool :=
  match v with
  | PInt z => z =? n
  | PBool b => (if b then 1 else 0) =? n
  | _ => false
  end.

(** [v == s] for a string literal [s]. *)
Definition py_eq_str (v : pyval) (s : string) : bool :=
  match v with
  | PStr t => String.eqb t s
  | _ => false
  end.

(** [type(v) == str]. *)
Definition is_str (v : pyval) : bool :=
  match v with
  | PStr _ => true
  | _ => false
  end.

(** The argument [blocked]: a list, or one of the other collections a caller
    may pass, or a scalar (among them the default [None]). *)
Inductive pyseq : Type :=
  | SList (entries : list pyval)
  | STuple (entries : list pyval)
  | SSet (entries : list pyval)
  | SScalar (v : pyval).

(** ** Exceptions *)

(** Every [raise] of the file raises [ValueError]; the three messages are told
    apart by the names the specification gives them. *)
Inductive error : Type :=
  | AmountTooLarge
  | InvalidBlockedField
  | NoUsableBalance.

Inductive result (A : Type) : Type :=
  | Ok (a : A)
  | Raise (e : error).
Arguments Ok {A} a.
Arguments Raise {A} e.

(** Exceptions propagate through stdpp's monadic notation [x ← r; k]. *)
#[global] Instance result_ret : MRet result := @Ok.
#[global] Instance result_bind : MBind result := λ A B k r,
  match r with
  | Ok a => k a
  | Raise e => Raise e
  end.

(** ** Dictionaries of query parameters

    [urlencode] walks a dict in insertion order, so the parameters are an
    association list: assigning to a key that is present keeps its place,
    assigning to a new key appends it. *)
Definition dict : Type := list (string * pyval).

Fixpoint dict_get (k : string) (d : dict) : option pyval :=
  match d with
  | [] => None
  | (k', v) :: d' => if String.eqb k' k then Some v else dict_get k d'
  end.

Fixpoint dict_set (k : string) (v : pyval) (d : dict) : dict :=
  match d with
  | [] => [(k, v)]
  | (k', v') :: d' =>
      if String.eqb k' k then (k', v) :: d' else (k', v') :: dict_set k v d'
  end.

(** ** [urllib.parse.urlencode] *)

Definition hex_digit (n : N) : ascii :=
  match n with
  | 0 => "0" | 1 => "1" | 2 => "2" | 3 => "3" | 4 => "4" | 5 => "5"
  | 6 => "6" | 7 => "7" | 8 => "8" | 9 => "9" | 10 => "A" | 11 => "B"
  | 12 => "C" | 13 => "D" | 14 => "E" | _ => "F"
  end%char%N.

(** Letters, digits and [_.-~] are never quoted. *)
Definition always_safe (c : ascii) : bool :=
  let n := N_of_ascii c in
  ((65 <=? n) && (n <=? 90) || (97 <=? n) && (n <=? 122)
   || (48 <=? n) && (n <=? 57)
   || (n =? 95) || (n =? 46) || (n =? 45) || (n =? 126))%N.

(** [quote_plus]: a string is its UTF-8 bytes; a space becomes [+], every
    other unsafe byte [%XX]. *)
Fixpoint quote_plus (s : string) : string :=
  match s with
  | EmptyString => EmptyString
  | String c s' =>
      if always_safe c then String c (quote_plus s')
      else if Ascii.eqb c " " then String "+" (quote_plus s')
      else
        let n := N_of_ascii c in
        String "%" (String (hex_digit (n / 16)) (String (hex_digit (n mod 16))
          (quote_plus s')))
  end.

Definition urlencode_pair (kv : string * pyval) : string :=
  quote_plus (fst kv) +:+ "=" +:+ quote_plus (py_str (snd kv)).

Definition urlencode (d : dict) : string :=
  String.concat "&" (map urlencode_pair d).

(** ** Amounts *)

(** [amount > 99999] and the like: an amount is the exact rational value of
    the Python number (an [int] or a finite [float]). *)
Definition Qgt_bool (a b : Q) : bool := negb (Qle_bool a b).

(** The amount in whole cents, excess precision cut off toward zero. *)
Definition cents_of (amount : Q) : Z :=
  Z.quot (Qnum amount * 100) (Z.pos (Qden amount)).

(** ** The payment-form link *)

Section FormLink.

(** The names of the two amount fields of the form are fixed inside
    [util.split_float], which is missing from the sources, and the
    specification does not spell them: they are left open. *)
Variable amount_integer_key : string.
Variable amount_fraction_key : string.

(** Modelled from the spec: [util.split_float] is missing from the sources.
    "Split amount into integer-part and fractional-cents-part parameters (two
    fixed-point fields), rounding down to the cent on excess precision", the
    two summing in cents to the amount "rounded toward zero on excess
    precision" (the two roundings agree on the amounts a payment can have,
    which are not negative). *)
Definition split_float (amount : Q) : dict :=
  dict_set amount_fraction_key (PInt (Z.rem (cents_of amount) 100))
    (dict_set amount_integer_key (PInt (Z.quot (cents_of amount) 100)) []).

(** Modelled from the spec: [util.merge_dicts] is missing from the sources.
    The currency parameter (step 3) and the split amount (step 2) end up in
    one set of parameters; as for [dict.update], a key of the second dict
    takes the value given there. *)
Definition merge_dicts (d1 d2 : dict) : dict :=
  fold_left (fun d kv => dict_set (fst kv) (snd kv) d) d2 d1.

(** Modelled from the spec: [util.sources_list] is missing from the sources.
    The entries are attached "as a repeated/list-style query parameter":
    entry number [i] under the key [name[i]]. *)
Fixpoint sources_list_from (i : nat) (sources : list pyval) (params : dict)
    (name : string) : dict :=
  match sources with
  | [] => params
  | source :: rest =>
      sources_list_from (S i) rest
        (dict_set (name +:+ "[" +:+ pretty i +:+ "]") source params) name
  end.

(** Modelled from the spec: [util.sources_list(sources, params, name)], the
    attachment above counted from entry 0. *)
Definition sources_list (sources : list pyval) (params : dict)
    (name : string) : dict :=
  sources_list_from 0 sources params name.

(** [if pid == "99" and comment: params["extra['comment']"] = comment]. *)
Definition attach_comment (pid : string) (comment : pyval) (params : dict)
    : dict :=
  if String.eqb pid "99" && truthy comment
  then dict_set "extra['comment']" comment params else params.

(** [if account: params["extra['account']"] = account]. *)
Definition attach_account (account : pyval) (params : dict) : dict :=
  if truthy account
  then dict_set "extra['account']" account params else params.

(** [entry in ['sum', 'account', 'comment']]. *)
Definition allowed_blocked (entry : pyval) : bool :=
  py_eq_str entry "sum" || py_eq_str entry "account"
  || py_eq_str entry "comment".

(** The loop over [blocked]: the first entry outside the list raises. *)
Fixpoint check_blocked (entries : list pyval) : result unit :=
  match entries with
  | [] => Ok tt
  | entry :: rest =>
      if allowed_blocked entry then check_blocked rest
      else Raise InvalidBlockedField
  end.

(** The block guarded by [type(blocked) == list and len(blocked) > 0]. *)
Definition attach_blocked (blocked : pyseq) (params : dict) : result dict :=
  match blocked with
  | SList entries =>
      if (0 <? length entries)%nat then
        _ ← check_blocked entries;
        Ok (sources_list entries params "blocked")
      else Ok params
  | _ => Ok params
  end.

(** The chain [if pid == "99999" and account_type == 0 ... elif ... elif]. *)
Definition attach_account_type (pid : string) (account_type : pyval)
    (params : dict) : dict :=
  if String.eqb pid "99999" && py_eq_int account_type 0 then
    dict_set "extra['accountType']" (PStr "phone") params
  else if String.eqb pid "99999" && py_eq_int account_type 1 then
    dict_set "extra['accountType']" (PStr "nickname") params
  else if String.eqb pid "99999" && is_str account_type then
    dict_set "extra['accountType']" account_type params
  else params.

(** The body of [generate_form_link] up to the call of [urlencode]: the
    value of [params] there, or the exception raised before.  Each [if]
    statement of the body is one of the steps above. *)
Definition generate_form_params (pid : string) (account : pyval) (amount : Q)
    (comment : pyval) (blocked : pyseq) (account_type : pyval)
    : result dict :=
  let params := [("currency", PInt 643)] in
  let params := merge_dicts params (split_float amount) in
  if Qgt_bool amount 99999 then Raise AmountTooLarge else
  let params := attach_comment pid comment params in
  let params := attach_account account params in
  params ← attach_blocked blocked params;
  Ok (attach_account_type pid account_type params).

(** [generate_form_link(pid, account, amount, comment, blocked,
    account_type)]. *)
Definition generate_form_link (pid : string) (account : pyval) (amount : Q)
    (comment : pyval) (blocked : pyseq) (account_type : pyval)
    : result string :=
  let url := "https://qiwi.com/payment/form/" +:+ pid in
  params ← generate_form_params pid account amount comment blocked
             account_type;
  let encoded_params := urlencode params in
  Ok (url +:+ "?" +:+ encoded_params).

End FormLink.

(** ** JSON responses *)

(** The values of the decoded responses that the wallet looks at. *)
Inductive json : Type :=
  | JNull
  | JBool (b : bool)
  | JNum (q : Q)
  | JStr (s : string).

(** [bool(v)] of a decoded JSON value. *)
Definition json_truthy (v : json) : bool :=
  match v with
  | JNull => false
  | JBool b => b
  | JNum q => negb (Qeq_bool q 0)
  | JStr s => negb (String.eqb s "")
  end.

(** [d.get(k)]: [None] when the key is missing. *)
Definition json_get (k : string) (d : gmap string json) : json :=
  default JNull (d !! k).

(** ** [Wallet.balance] *)

(** Modelled from the spec: [types.Account] is missing from the sources.
    An account has an "alias, currency code (ISO 4217 numeric), balance
    (optional amount+currency)"; the lookup reads [currency] and [balance],
    the latter the decoded mapping of the response, or [None]. *)
Module Account.
Record t : Type := {
  alias : string;
  currency : Z;
  balance : option (gmap string json)
}.
End Account.

(** [bool(account.balance)]: [None] and the empty dict are false. *)
Definition balance_truthy (b : option (gmap string json)) : bool :=
  match b with
  | None => false
  | Some d => negb (bool_decide (d = ∅))
  end.

(** [account.balance.get('amount')], evaluated only behind the test of
    [account.balance]. *)
Definition balance_amount (b : option (gmap string json)) : json :=
  match b with
  | None => JNull
  | Some d => json_get "amount" d
  end.

(** [Wallet.balance(currency)] over the accounts that [self.accounts]
    delivers. *)
Fixpoint balance (accounts : list Account.t) (cur : Z) : result json :=
  match accounts with
  | [] => Raise NoUsableBalance
  | account :: rest =>
      if (Account.currency account =? cur)
         && balance_truthy (Account.balance account)
         && json_truthy (balance_amount (Account.balance account))
      then Ok (balance_amount (Account.balance account))
      else balance rest cur
  end.

(** ** [Wallet.identification] *)

(** Modelled from the spec: [types.Identity.de_json] is missing from the
    sources.  The entity holds the "personal fields echoed back, including a
    caller-supplied field not returned by the service (national tax id)"; the
    key of the latter, ['base_inn'], is the one [Wallet.identification] writes.
    The fields the service returns are kept as they come. *)
Record Identity : Type := {
  echoed : gmap string json;
  base_inn : json
}.

(** Modelled from the spec: [types.Identity.de_json], the decoder of the
    entity above. *)
Definition Identity_de_json (obj : gmap string json) : Identity :=
  {| echoed := delete "base_inn" obj; base_inn := json_get "base_inn" obj |}.

Section Identification.

(** [apihelper.identification], the request to the service, by its
    decoded response. *)
Variable api_identification :
  forall (token number birth_date first_name middle_name last_name
          passport : string) (inn : json) (snils oms : string),
    gmap string json.

(** The response with the caller's tax id written into it: what
    [Wallet.identification] hands to the decoder. *)
Definition identification_json (token number birth_date first_name
    middle_name last_name passport : string) (inn : json)
    (snils oms : string) : gmap string json :=
  let result_json :=
    api_identification token number birth_date first_name middle_name
      last_name passport inn snils oms in
  <["base_inn" := inn]> result_json.

Definition identification (token number birth_date first_name middle_name
    last_name passport : string) (inn : json) (snils oms : string)
    : Identity :=
  Identity_de_json
    (identification_json token number birth_date first_name middle_name
       last_name passport inn snils oms).

End Identification.

(** ** [Wallet.__init__] *)

(** [s.replace(old, new)] for a one-character [old]. *)
Fixpoint str_replace (old : ascii) (new : string) (s : string) : string :=
  match s with
  | EmptyString => EmptyString
  | String c s' =>
      if Ascii.eqb c old then new +:+ str_replace old new s'
      else String c (str_replace old new s')
  end.

(** [s[1:]] of a string whose first character is one byte, as the [8] in
    front of the number is. *)
Definition str_tail (s : string) : string :=
  match s with
  | EmptyString => EmptyString
  | String _ s' => s'
  end.

(** The branch [if isinstance(number, str)]: the value it leaves in
    [self.number], or [None] when it does not bind the attribute. *)
Definition init_number (number : pyval) : option string :=
  match number with
  | PStr number =>
      let self_number := str_replace "+" "" number in
      if String.prefix "8" self_number
      then Some ("7" +:+ str_tail self_number)
      else Some self_number
  | _ => None
  end.

(** The attributes of a wallet that [__init__] binds from its arguments. *)
Record Wallet : Type := {
  number : option string;
  token : string;
  auth_info_enabled : bool;
  contract_info_enabled : bool;
  user_info_enabled : bool
}.

Section WalletInit.

(** [str(self.profile.contract_info.contract_id)], evaluated only when the
    contract information is enabled: the profile is fetched from the service
    and decoded and its contract information, which may be missing, is read.
    It is the contract id, or the exception of the step that fails. *)
Context {E : Type}.
Variable contract_id : E + string.

Definition Wallet_init (token : string) (number : pyval)
    (contract_info auth_info user_info : bool) : E + Wallet :=
  let self_number := init_number number in
  let wallet (self_number : option string) : Wallet :=
    {| number := self_number; token := token;
       auth_info_enabled := auth_info;
       contract_info_enabled := contract_info;
       user_info_enabled := user_info |} in
  if contract_info then
    match contract_id with
    | inr id => inr (wallet (Some id))
    | inl e => inl e
    end
  else inr (wallet self_number).

End WalletInit.

(** ** Vocabulary of the statements *)

(** The address of the form, with the encoded parameters appended. *)
Definition form_url (pid : string) (params : dict) : string :=
  "https://qiwi.com/payment/form/" +:+ pid +:+ "?" +:+ urlencode params.

(** The encoder in the order of the specification, "1. Validate
    [amount <= 99999]; fail with [AmountTooLarge] otherwise" coming before
    the split of the amount; the steps after it are those of the code. *)
Definition generate_form_link_validated_first (ki kf pid : string)
    (account : pyval) (amount : Q) (comment : pyval) (blocked : pyseq)
    (account_type : pyval) : result string :=
  if Qgt_bool amount 99999 then Raise AmountTooLarge else
  let params := merge_dicts [("currency", PInt 643)]
                  (split_float ki kf amount) in
  let params := attach_comment pid comment params in
  let params := attach_account account params in
  params ← attach_blocked blocked params;
  Ok (form_url pid (attach_account_type pid account_type params)).

(** The key of entry number [i] of the blocked fields. *)
Definition blocked_key (i : nat) : string :=
  "blocked" +:+ "[" +:+ pretty i +:+ "]".

(** The keys [generate_form_link] writes itself. *)
Definition reserved_key (k : string) : bool :=
  bool_decide (k ∈ ["currency"; "extra['comment']"; "extra['account']";
                    "extra['accountType']"])
  || String.prefix "blocked" k.

(** The two amount fields have names of their own. *)
Definition amount_keys_apart (ki kf : string) : bool :=
  negb (String.eqb ki kf) && negb (reserved_key ki) && negb (reserved_key kf).

(** The names a blocked field may have. *)
Definition blocked_names : list pyval :=
  [PStr "sum"; PStr "account"; PStr "comment"].

(** [blocked] passes its check: it is no list, or a list of allowed names. *)
Definition blocked_accepted (blocked : pyseq) : bool :=
  match blocked with
  | SList entries => forallb allowed_blocked entries
  | _ => true
  end.

(** [type(blocked) == list]. *)
Definition is_list (blocked : pyseq) : bool :=
  match blocked with
  | SList _ => true
  | _ => false
  end.

(** [s] occurs in [t]. *)
Definition occurs_in (s t : string) : Prop :=
  ∃ pre post, t = pre +:+ s +:+ post.

(** An amount that is there and is not zero: a number other than 0; of the
    other values of JSON, [true] and a string that is not empty. *)
Definition nonzero (v : json) : Prop :=
  match v with
  | JNull => False
  | JBool b => b = true
  | JNum q => ¬ (q == 0)%Q
  | JStr s => s ≠ ""
  end.

(** An account of the currency whose balance is there, with an amount that
    is not zero. *)
Definition usable (cur : Z) (account : Account.t) : Prop :=
  Account.currency account = cur ∧
  ∃ d v, Account.balance account = Some d ∧ d !! "amount" = Some v ∧
         nonzero v.

(** [s] without the occurrences of [c]. *)
Definition without_char (c : ascii) (s : string) : string :=
  String.string_of_list_ascii
    (filter (λ c', c' ≠ c) (String.list_ascii_of_string s)).

(** The characters of an encoded name or value: the ones [quote_plus] keeps,
    the [+] of a space and the [%] of a quoted byte. *)
Definition query_char (c : ascii) : bool :=
  always_safe c || Ascii.eqb c "+" || Ascii.eqb c "%".

(** Every character of [s] passes [p]. *)
Fixpoint str_forall (p : ascii → bool) (s : string) : bool :=
  match s with
  | EmptyString => true
  | String c s' => p c && str_forall p s'
  end.

(** The parameters as [urlencode] takes them: each value by its [str]. *)
Definition rendered (d : dict) : list (string * string) :=
  map (λ kv, (fst kv, py_str (snd kv))) d.

(** [c] does not occur in [s]. *)
Definition str_free (c : ascii) (s : string) : bool :=
  str_forall (λ x, negb (Ascii.eqb x c)) s.

(** The characters of a query string: those of the names and values, the
    [=] inside a parameter and the [&] between two. *)
Definition link_char (c : ascii) : bool :=
  query_char c || Ascii.eqb c "=" || Ascii.eqb c "&".

(** ** The decoded responses of the service *)

(** A decoded JSON value with its lists and objects; an object keeps the
    order of its keys, which is the order Python iterates it in. *)
#[warnings="-register-all"]
Inductive jnode : Type :=
  | JLeaf (v : json)
  | JArr (items : list jnode)
  | JObj (fields : list (string * jnode)).

(** The exceptions of the accessors: the [KeyError] of [d[key]], the
    [TypeError] of a loop over a value that cannot be iterated, the
    [ValueError]s of the balance and of [Wallet.mobile]. *)
Inductive exn : Type :=
  | KeyError (key : string)
  | TypeError
  | ValueError (e : error)
  | ProviderNotDetected.

Inductive outcome (A : Type) : Type :=
  | Return (a : A)
  | Throw (x : exn).
Arguments Return {A} a.
Arguments Throw {A} x.

#[global] Instance outcome_ret : MRet outcome := @Return.
#[global] Instance outcome_bind : MBind outcome := λ A B k r,
  match r with
  | Return a => k a
  | Throw x => Throw x
  end.

(** [d[key]] on the object of a response. *)
Definition py_getitem (key : string) (d : gmap string jnode)
    : outcome jnode :=
  match d !! key with
  | Some v => Return v
  | None => Throw (KeyError key)
  end.

(** [d.get(key)]. *)
Definition py_get (key : string) (d : gmap string jnode) : jnode :=
  default (JLeaf JNull) (d !! key).

(** [v is None]. *)
Definition is_None (v : jnode) : bool :=
  match v with
  | JLeaf JNull => true
  | _ => false
  end.

(** The bytes 10xxxxxx, which go on a character of a UTF-8 string. *)
Definition utf8_continuation (c : ascii) : bool :=
  ((128 <=? N_of_ascii c) && (N_of_ascii c <? 192))%N.

(** The characters of a string, each with the bytes that go on it. *)
Fixpoint utf8_chars (s : string) : list string :=
  match s with
  | EmptyString => []
  | String c s' =>
      match s' with
      | EmptyString => [String c EmptyString]
      | String c' _ =>
          if utf8_continuation c' then
            match utf8_chars s' with
            | g :: gs => String c g :: gs
            | [] => [String c EmptyString]
            end
          else String c EmptyString :: utf8_chars s'
      end
  end.

(** What [for x in v] runs over: the items of a list, the keys of an
    object, the characters of a string; anything else cannot be iterated. *)
Definition py_iter (v : jnode) : outcome (list jnode) :=
  match v with
  | JArr items => Return items
  | JObj fields => Return (map (λ kv, JLeaf (JStr (fst kv))) fields)
  | JLeaf (JStr s) => Return (map (λ c, JLeaf (JStr c)) (utf8_chars s))
  | JLeaf _ => Throw TypeError
  end.

Section Decoding.

(** A decoder of [types], [de_json] of one of its classes. *)
Context {T : Type}.
Variable de_json : jnode → outcome T.

(** [for item in items: acc.append(de_json(item))]. *)
Fixpoint decode_loop (items : list jnode) (acc : list T)
    : outcome (list T) :=
  match items with
  | [] => Return acc
  | item :: rest =>
      x ← de_json item;
      decode_loop rest (acc ++ [x])
  end.

(** [acc = []], the loop over [v], [return acc]. *)
Definition decode_each (v : jnode) : outcome (list T) :=
  items ← py_iter v;
  decode_loop items [].

(** The property [Wallet.accounts], by the response of
    [apihelper.funding_sources]. *)
Definition Wallet_accounts (result_json : gmap string jnode)
    : outcome (list T) :=
  v ← py_getitem "accounts" result_json;
  decode_each v.

(** The property [Wallet.cross_rates], by the response of
    [apihelper.cross_rates]. *)
Definition Wallet_cross_rates (result_json : gmap string jnode)
    : outcome (list T) :=
  v ← py_getitem "result" result_json;
  decode_each v.

(** The property [Wallet.offered_accounts], by the response of
    [apihelper.get_accounts_offer]. *)
Definition Wallet_offered_accounts (result_json : jnode)
    : outcome (list T) :=
  decode_each result_json.

End Decoding.

(** The dict that [Wallet.history] returns. *)
Record History (T D : Type) : Type := {
  transactions : list T;
  next_txn_date : option D;
  next_txn_id : jnode
}.
Arguments transactions {T D} _.
Arguments next_txn_date {T D} _.
Arguments next_txn_id {T D} _.

Section HistoryOf.

Context {T D : Type}.
(** [types.Transaction.de_json] and [types.JsonDeserializable.decode_date]. *)
Variable Transaction_de_json : jnode → outcome T.
Variable decode_date : jnode → outcome D.

(** [Wallet.history], by the response of [apihelper.payment_history]. *)
Definition Wallet_history (result_json : gmap string jnode)
    : outcome (History T D) :=
  v ← py_getitem "data" result_json;
  transactions ← decode_each Transaction_de_json v;
  ntd ← (if negb (is_None (py_get "nextTxnDate" result_json))
         then d ← decode_date (py_get "nextTxnDate" result_json);
              Return (Some d)
         else Return None);
  Return {| transactions := transactions;
            next_txn_date := ntd;
            next_txn_id := py_get "nextTxnId" result_json |}.

End HistoryOf.

(** [Wallet.balance(currency)] with the accounts fetched and decoded, as
    the property [Wallet.accounts] delivers them. *)
Definition Wallet_balance (Account_de_json : jnode → outcome Account.t)
    (result_json : gmap string jnode) (cur : Z) : outcome json :=
  accounts ← Wallet_accounts Account_de_json result_json;
  match balance accounts cur with
  | Ok amount => Return amount
  | Raise e => Throw (ValueError e)
  end.

(** ** [Wallet.stat] *)

(** A naive [datetime.datetime]. *)
Record datetime : Type := {
  year : Z;
  month : Z;
  day : Z;
  hour : Z;
  minute : Z;
  second : Z;
  microsecond : Z
}.

(** [d.replace(day=1, hour=0, minute=0, second=1)]. *)
Definition replace_day_hour_minute_second (d : datetime) : datetime :=
  {| year := year d; month := month d; day := 1; hour := 0; minute := 0;
     second := 1; microsecond := microsecond d |}.

(** The dates [Wallet.stat] asks the statistics for.  The clock is the
    sequence of the readings of [datetime.datetime.utcnow()], [tick] the
    number of the next one; a date that is [None] takes a reading. *)
Definition stat_dates (clock : nat → datetime) (tick : nat)
    (start_date end_date : option datetime) : datetime * datetime * nat :=
  let '(start_date, tick) :=
    match start_date with
    | Some d => (d, tick)
    | None => (replace_day_hour_minute_second (clock tick), S tick)
    end in
  let '(end_date, tick) :=
    match end_date with
    | Some d => (d, tick)
    | None => (clock tick, S tick)
    end in
  (start_date, end_date, tick).

Section StatOf.

Context {Stat Proxy : Type}.
(** [apihelper.total_payment_history] by its response, and
    [types.Statistics.de_json]. *)
Variable api_total_payment_history :
  string → string → datetime → datetime → pyval → pyval → Proxy →
  gmap string jnode.
Variable Statistics_de_json : gmap string jnode → outcome Stat.

(** [Wallet.stat(start_date, end_date, operation, sources)]. *)
Definition Wallet_stat (clock : nat → datetime) (tick : nat)
    (token number : string) (proxy : Proxy)
    (start_date end_date : option datetime) (operation sources : pyval)
    : outcome Stat * nat :=
  let '(start_date, end_date, tick) :=
    stat_dates clock tick start_date end_date in
  let result_json :=
    api_total_payment_history token number start_date end_date operation
      sources proxy in
  (Statistics_de_json result_json, tick).

End StatOf.

(** ** Payments *)

(** [s] without the bytes that go on the character before. *)
Fixpoint drop_continuation (s : string) : string :=
  match s with
  | EmptyString => EmptyString
  | String c s' => if utf8_continuation c then drop_continuation s' else s
  end.

(** [s[1:]] of any string: without its first character, which takes its
    first byte and the bytes that go on it. *)
Definition str_from_1 (s : string) : string :=
  match s with
  | EmptyString => EmptyString
  | String _ s' => drop_continuation s'
  end.

Section Payments.

Context {P : Type}.
(** The proxies, and the module variable [proxyy], which no function of the
    module assigns: the [{}] it starts with. *)
Context {Proxy : Type}.
Variable proxyy : Proxy.
(** [apihelper.detect] and [apihelper.payments] by their results, and
    [types.Payment.de_json]. *)
Variable api_detect : string → Proxy → pyval.
Variable api_payments :
  string → pyval → Q → pyval → pyval → pyval → Proxy → gmap string jnode.
Variable Payment_de_json : gmap string jnode → outcome P.

(** [detect_mobile(phone)]. *)
Definition detect_mobile (phone : string) : pyval :=
  api_detect phone proxyy.

(** [Wallet.send(pid, recipient, amount, comment, fields)]. *)
Definition Wallet_send (token : string) (proxy : Proxy) (pid recipient : pyval)
    (amount : Q) (comment fields : pyval) : outcome P :=
  let result_json :=
    api_payments token pid amount recipient comment fields proxy in
  Payment_de_json result_json.

(** [Wallet.qiwi_transfer(account, amount, comment)]. *)
Definition Wallet_qiwi_transfer (token : string) (proxy : Proxy)
    (account : pyval) (amount : Q) (comment : pyval) : outcome P :=
  Wallet_send token proxy (PStr "99") account amount comment PNone.

(** [Wallet.mobile(account, amount)]. *)
Definition Wallet_mobile (token : string) (proxy : Proxy) (account : string)
    (amount : Q) : outcome P :=
  let pid := detect_mobile account in
  if truthy pid then
    Wallet_send token proxy pid (PStr (str_from_1 account)) amount PNone
      PNone
  else Throw ProviderNotDetected.

End Payments.

(** ** Vocabulary of the further statements *)

(** The order of Python on tuples of integers, which is the one on naive
    datetimes by their fields. *)
Fixpoint tuple_le (a b : list Z) : bool :=
  match a, b with
  | [], _ => true
  | _ :: _, [] => false
  | x :: a', y :: b' => (x <? y) || ((x =? y) && tuple_le a' b')
  end.

Definition datetime_fields (d : datetime) : list Z :=
  [year d; month d; day d; hour d; minute d; second d; microsecond d].

(** [a <= b] on datetimes. *)
Definition datetime_le (a b : datetime) : bool :=
  tuple_le (datetime_fields a) (datetime_fields b).

(** The day and the time of a datetime are in their ranges from below. *)
Definition datetime_from_below (d : datetime) : Prop :=
  1 ≤ day d ∧ 0 ≤ hour d ∧ 0 ≤ minute d ∧ 0 ≤ second d.

(** The first second of a month: the first day, 00:00:00 and a fraction. *)
Definition first_second_of_month (d : datetime) : Prop :=
  day d = 1 ∧ hour d = 0 ∧ minute d = 0 ∧ second d = 0.

(** * Properties *)

(** ** Dictionaries *)

Lemma dict_get_set_eq (k : string) (v : pyval) (d : dict) :
  dict_get k (dict_set k v d) = Some v.
Proof.
  induction d as [|[k' v'] d IH]; simpl.
  - by rewrite String.eqb_refl.
  - destruct (String.eqb k' k) eqn:E; simpl; rewrite E; [done | apply IH].
Qed.

Lemma dict_get_set_ne (k k' : string) (v : pyval) (d : dict) :
  k ≠ k' → dict_get k' (dict_set k v d) = dict_get k' d.
Proof.
  intros Hne. induction d as [|[k0 v0] d IH]; simpl.
  - by apply String.eqb_neq in Hne as ->.
  - destruct (String.eqb k0 k) eqn:E; simpl; [|by rewrite IH].
    apply String.eqb_eq in E as ->.
    by apply String.eqb_neq in Hne as ->.
Qed.

Lemma dict_get_In (k : string) (v : pyval) (d : dict) :
  dict_get k d = Some v → In (k, v) d.
Proof.
  induction d as [|[k' v'] d IH]; simpl; [done|].
  destruct (String.eqb k' k) eqn:E.
  - apply String.eqb_eq in E as ->. intros [= ->]. by left.
  - intros H. right. by apply IH.
Qed.

(** ** Keys of the blocked entries *)

Lemma append_last_inj (s1 s2 : string) (c : ascii) :
  s1 +:+ String c "" = s2 +:+ String c "" → s1 = s2.
Proof.
  revert s2. induction s1 as [|a s1 IH]; intros [|b s2]; cbn; try done.
  - intros [= _ H]. by destruct s2.
  - intros [= _ H]. by destruct s1.
  - intros [= -> H]. f_equal. by apply IH.
Qed.

Lemma sources_key_inj (name : string) (i j : nat) :
  name +:+ "[" +:+ pretty i +:+ "]" = name +:+ "[" +:+ pretty j +:+ "]" →
  i = j.
Proof.
  intros H. apply (inj (String.app name)) in H.
  apply (inj (String.app "[")) in H.
  apply append_last_inj in H. by apply (inj pretty) in H.
Qed.

Lemma blocked_key_prefix (i : nat) :
  String.prefix "blocked" (blocked_key i) = true.
Proof. done. Qed.

Lemma sources_list_from_other (name k : string) (sources : list pyval) :
  ∀ (i : nat) (params : dict),
    (∀ j, (i ≤ j)%nat → k ≠ name +:+ "[" +:+ pretty j +:+ "]") →
    dict_get k (sources_list_from i sources params name) = dict_get k params.
Proof.
  induction sources as [|source rest IH]; intros i params Hk; simpl; [done|].
  rewrite IH by (intros j Hj; apply Hk; lia).
  apply dict_get_set_ne. intros E. by apply (Hk i).
Qed.

Lemma sources_list_from_get (name : string) (sources : list pyval) :
  ∀ (i n : nat) (params : dict) (entry : pyval),
    sources !! n = Some entry →
    dict_get (name +:+ "[" +:+ pretty (i + n)%nat +:+ "]")
      (sources_list_from i sources params name) = Some entry.
Proof.
  induction sources as [|source rest IH]; intros i n params entry Hn;
    [done|].
  destruct n as [|n]; simpl in *.
  - injection Hn as ->. rewrite Nat.add_0_r.
    rewrite sources_list_from_other; [apply dict_get_set_eq|].
    intros j Hj E. apply sources_key_inj in E. lia.
  - rewrite <- Nat.add_succ_comm. by apply IH.
Qed.

Lemma sources_list_from_value (name k : string) (v : pyval)
    (sources : list pyval) :
  ∀ (i : nat) (params : dict),
    dict_get k (sources_list_from i sources params name) = Some v →
    dict_get k params = Some v ∨ v ∈ sources.
Proof.
  induction sources as [|source rest IH]; intros i params; simpl;
    [by left|].
  intros [H | H]%IH; [|right; by right].
  destruct (decide (name +:+ "[" +:+ pretty i +:+ "]" = k)) as [<- | Hne].
  - rewrite dict_get_set_eq in H. injection H as ->. right. by left.
  - rewrite dict_get_set_ne in H by done. by left.
Qed.

(** ** The check of the blocked fields *)

Lemma allowed_blocked_names (entry : pyval) :
  allowed_blocked entry = true ↔ entry ∈ blocked_names.
Proof.
  unfold allowed_blocked, blocked_names. split.
  - destruct entry as [| b | z | s]; simpl; try done.
    rewrite !orb_true_iff, !String.eqb_eq.
    intros [[-> | ->] | ->]; repeat constructor.
  - intros H. repeat (apply elem_of_cons in H as [-> | H]); try done.
    by apply elem_of_nil in H.
Qed.

Lemma check_blocked_forallb (entries : list pyval) :
  check_blocked entries =
    if forallb allowed_blocked entries then Ok tt
    else Raise InvalidBlockedField.
Proof.
  induction entries as [|entry rest IH]; simpl; [done|].
  by destruct (allowed_blocked entry).
Qed.

(** ** The parameters of the link *)

Lemma reserved_key_false (k : string) :
  reserved_key k = false →
  k ≠ "currency" ∧ k ≠ "extra['comment']" ∧ k ≠ "extra['account']" ∧
  k ≠ "extra['accountType']" ∧ String.prefix "blocked" k = false.
Proof.
  unfold reserved_key. intros [Hk Hp]%orb_false_iff.
  apply bool_decide_eq_false in Hk.
  repeat split; try done; intros ->; apply Hk; set_solver.
Qed.

Lemma not_blocked_key (k : string) (j : nat) :
  String.prefix "blocked" k = false → k ≠ blocked_key j.
Proof. intros Hp ->. by rewrite blocked_key_prefix in Hp. Qed.

Lemma attach_comment_other (pid k : string) (comment : pyval) (d : dict) :
  k ≠ "extra['comment']" →
  dict_get k (attach_comment pid comment d) = dict_get k d.
Proof.
  intros Hk. unfold attach_comment.
  destruct (_ && _); [|done]. by apply dict_get_set_ne.
Qed.

Lemma attach_account_other (k : string) (account : pyval) (d : dict) :
  k ≠ "extra['account']" →
  dict_get k (attach_account account d) = dict_get k d.
Proof.
  intros Hk. unfold attach_account.
  destruct (truthy account); [|done]. by apply dict_get_set_ne.
Qed.

Lemma attach_account_type_other (pid k : string) (account_type : pyval)
    (d : dict) :
  k ≠ "extra['accountType']" →
  dict_get k (attach_account_type pid account_type d) = dict_get k d.
Proof.
  intros Hk. unfold attach_account_type.
  repeat (destruct (_ && _); [by apply dict_get_set_ne|]). done.
Qed.

Lemma attach_blocked_other (k : string) (blocked : pyseq) (d d' : dict) :
  String.prefix "blocked" k = false →
  attach_blocked blocked d = Ok d' → dict_get k d' = dict_get k d.
Proof.
  intros Hk. unfold attach_blocked.
  destruct blocked as [entries | | |]; try by intros [= ->].
  destruct (0 <? length entries)%nat; [|by intros [= ->]].
  rewrite check_blocked_forallb.
  destruct (forallb _ _); [|done]. intros [= <-].
  apply sources_list_from_other. intros j _. by apply not_blocked_key.
Qed.

Lemma attach_blocked_not_list (blocked : pyseq) (d : dict) :
  is_list blocked = false → attach_blocked blocked d = Ok d.
Proof. by destruct blocked. Qed.

Lemma attach_blocked_accepted (blocked : pyseq) (d : dict) :
  blocked_accepted blocked = true → ∃ d', attach_blocked blocked d = Ok d'.
Proof.
  destruct blocked as [entries | | |]; simpl; eauto.
  intros H. destruct (0 <? length entries)%nat; [|eauto].
  rewrite check_blocked_forallb, H. eauto.
Qed.

Lemma attach_blocked_rejected (blocked : pyseq) (d : dict) :
  blocked_accepted blocked = false →
  attach_blocked blocked d = Raise InvalidBlockedField.
Proof.
  destruct blocked as [entries | | |]; simpl; try done.
  intros H. destruct entries as [|entry rest]; [done|].
  cbn [length Nat.ltb Nat.leb]. by rewrite check_blocked_forallb, H.
Qed.

(** ** Encoded strings *)

Lemma str_app_assoc (s1 s2 s3 : string) :
  (s1 +:+ s2) +:+ s3 = s1 +:+ s2 +:+ s3.
Proof.
  induction s1 as [|c s1 IH]; [done|].
  change (String c ((s1 +:+ s2) +:+ s3) = String c (s1 +:+ s2 +:+ s3)).
  by rewrite IH.
Qed.

Lemma str_app_nil_r (s : string) : s +:+ "" = s.
Proof.
  induction s as [|c s IH]; [done|].
  change (String c (s +:+ "") = String c s). by rewrite IH.
Qed.

Lemma occurs_in_app_l (pre s t : string) :
  occurs_in s t → occurs_in s (pre +:+ t).
Proof.
  intros (p & q & ->). exists (pre +:+ p), q. by rewrite str_app_assoc.
Qed.

Lemma occurs_in_concat (sep x : string) (l : list string) :
  In x l → occurs_in x (String.concat sep l).
Proof.
  induction l as [|y l IH]; [done|].
  intros [-> | Hx].
  - destruct l as [|z l].
    + exists "", "". symmetry. apply str_app_nil_r.
    + by exists "", (sep +:+ String.concat sep (z :: l)).
  - destruct l as [|z l]; [done|].
    change (String.concat sep (y :: z :: l))
      with (y +:+ sep +:+ String.concat sep (z :: l)).
    by apply occurs_in_app_l, occurs_in_app_l, IH.
Qed.

Lemma quote_plus_pretty_N_go (x : N) :
  ∀ s, quote_plus s = s → quote_plus (pretty_N_go x s) = pretty_N_go x s.
Proof.
  induction (N.lt_wf_0 x) as [x _ IH]; intros s Hs.
  destruct (decide (x = 0)%N) as [-> | Hx]; [by rewrite pretty_N_go_0|].
  rewrite pretty_N_go_step by lia. apply IH.
  - apply N.div_lt; lia.
  - cbn [quote_plus]. rewrite Hs.
    unfold pretty_N_char. by repeat case_match.
Qed.

Lemma quote_plus_pretty (n : Z) :
  0 ≤ n → quote_plus (pretty n) = pretty n.
Proof.
  destruct n as [|p|p]; [done | | lia]. intros _.
  unfold pretty, pretty_Z, pretty, pretty_positive, pretty, pretty_N.
  case_decide; [done|]. by apply quote_plus_pretty_N_go.
Qed.

Lemma urlencode_occurs (k : string) (v : pyval) (params : dict) :
  dict_get k params = Some v →
  occurs_in (urlencode_pair (k, v)) (urlencode params).
Proof.
  intros Hk. apply dict_get_In in Hk. apply occurs_in_concat.
  by apply (in_map urlencode_pair) in Hk.
Qed.

Lemma form_url_occurs (pid k : string) (v : pyval) (params : dict) :
  dict_get k params = Some v →
  occurs_in (urlencode_pair (k, v)) (form_url pid params).
Proof.
  intros Hk. unfold form_url.
  by apply occurs_in_app_l, occurs_in_app_l, occurs_in_app_l,
    urlencode_occurs.
Qed.

Lemma form_url_occurs_int (pid k : string) (n : Z) (params : dict) :
  0 ≤ n → dict_get k params = Some (PInt n) →
  occurs_in (quote_plus k +:+ "=" +:+ pretty n) (form_url pid params).
Proof.
  intros Hn Hk. rewrite <- (quote_plus_pretty n Hn).
  by apply (form_url_occurs pid k (PInt n)).
Qed.

(** ** Amounts *)

Lemma Qgt_bool_true (a b : Q) : Qgt_bool a b = true ↔ (b < a)%Q.
Proof.
  unfold Qgt_bool. rewrite negb_true_iff, <- not_true_iff_false, Qle_bool_iff.
  split; [apply Qnot_le_lt | apply Qlt_not_le].
Qed.

Lemma Qgt_bool_false (a b : Q) : Qgt_bool a b = false ↔ (a <= b)%Q.
Proof. unfold Qgt_bool. by rewrite negb_false_iff, Qle_bool_iff. Qed.

Lemma cents_of_floor (amount : Q) :
  (0 <= amount)%Q → cents_of amount = Qfloor (amount * 100).
Proof.
  destruct amount as [n d]. unfold Qle, cents_of, Qfloor. simpl.
  intros Hn. rewrite Pos.mul_1_r. apply Z.quot_div_nonneg; lia.
Qed.

Lemma cents_of_split (amount : Q) :
  Z.quot (cents_of amount) 100 * 100 + Z.rem (cents_of amount) 100
  = cents_of amount.
Proof. pose proof (Z.quot_rem' (cents_of amount) 100). lia. Qed.

Lemma cents_of_nonneg (amount : Q) : (0 <= amount)%Q → 0 ≤ cents_of amount.
Proof.
  destruct amount as [n d]. unfold Qle, cents_of. simpl. intros Hn.
  apply Z.quot_pos; lia.
Qed.

Section FormLinkFacts.

Variables ki kf : string.

Lemma generate_form_link_params (pid : string) (account : pyval)
    (amount : Q) (comment : pyval) (blocked : pyseq) (account_type : pyval) :
  generate_form_link ki kf pid account amount comment blocked account_type
  = params ← generate_form_params ki kf pid account amount comment blocked
               account_type;
    Ok (form_url pid params).
Proof. done. Qed.

Lemma generate_form_link_Ok (pid : string) (account : pyval) (amount : Q)
    (comment : pyval) (blocked : pyseq) (account_type : pyval)
    (url : string) :
  generate_form_link ki kf pid account amount comment blocked account_type
  = Ok url →
  ∃ params,
    generate_form_params ki kf pid account amount comment blocked
      account_type = Ok params
    ∧ url = form_url pid params.
Proof.
  rewrite generate_form_link_params.
  destruct (generate_form_params _ _ _ _ _ _ _ _) as [params | e];
    [|done].
  intros [= <-]. eauto.
Qed.

Lemma generate_form_params_inv (pid : string) (account : pyval) (amount : Q)
    (comment : pyval) (blocked : pyseq) (account_type : pyval)
    (params : dict) :
  generate_form_params ki kf pid account amount comment blocked account_type
  = Ok params →
  (amount <= 99999)%Q ∧
  ∃ p,
    attach_blocked blocked
      (attach_account account
         (attach_comment pid comment
            (merge_dicts [("currency", PInt 643)]
               (split_float ki kf amount)))) = Ok p
    ∧ params = attach_account_type pid account_type p.
Proof.
  unfold generate_form_params.
  destruct (Qgt_bool amount 99999) eqn:Ha; [done|].
  apply Qgt_bool_false in Ha.
  destruct (attach_blocked _ _) as [p | e]; [|done].
  intros [= <-]. eauto.
Qed.

Lemma validated_first_same (pid : string) (account : pyval) (amount : Q)
    (comment : pyval) (blocked : pyseq) (account_type : pyval) :
  generate_form_link ki kf pid account amount comment blocked account_type
  = generate_form_link_validated_first ki kf pid account amount comment
      blocked account_type.
Proof.
  rewrite generate_form_link_params.
  unfold generate_form_params, generate_form_link_validated_first.
  destruct (Qgt_bool amount 99999); [done|].
  by destruct (attach_blocked _ _).
Qed.

(** C2: above 99999 the call raises the error of the amount and returns no
    link, whatever the other arguments are.  The body splits the amount
    before it checks it; the result is the one of the encoder that checks
    first, as the specification has it. *)
Theorem amount_above_limit_raises (pid : string) (account : pyval)
    (amount : Q) (comment : pyval) (blocked : pyseq)
    (account_type : pyval) :
  (99999 < amount)%Q →
  generate_form_link ki kf pid account amount comment blocked account_type
  = Raise AmountTooLarge
  ∧ generate_form_link ki kf pid account amount comment blocked account_type
    = generate_form_link_validated_first ki kf pid account amount comment
        blocked account_type.
Proof.
  intros Ha. apply Qgt_bool_true in Ha.
  split; [|apply validated_first_same].
  rewrite generate_form_link_params. unfold generate_form_params.
  by rewrite Ha.
Qed.

(** From here on the two amount fields have names of their own. *)
Hypothesis keys_apart : amount_keys_apart ki kf = true.

Lemma initial_params (amount : Q) :
  merge_dicts [("currency", PInt 643)] (split_float ki kf amount)
  = [("currency", PInt 643);
     (ki, PInt (Z.quot (cents_of amount) 100));
     (kf, PInt (Z.rem (cents_of amount) 100))].
Proof.
  pose proof keys_apart as H. unfold amount_keys_apart in H.
  apply andb_true_iff in H as [[Hd Hi]%andb_true_iff Hf].
  apply negb_true_iff in Hd, Hi, Hf.
  apply reserved_key_false in Hi as (Hi & _), Hf as (Hf & _).
  assert (String.eqb "currency" ki = false) as Hci
    by (by apply String.eqb_neq).
  assert (String.eqb "currency" kf = false) as Hcf
    by (by apply String.eqb_neq).
  unfold split_float, merge_dicts.
  by repeat (cbn [fold_left dict_set fst snd]; rewrite ?Hci, ?Hcf, ?Hd).
Qed.

Lemma initial_params_reserved (amount : Q) (k : string) :
  reserved_key k = true → k ≠ "currency" →
  dict_get k
    (merge_dicts [("currency", PInt 643)] (split_float ki kf amount))
  = None.
Proof.
  intros Hr Hc. rewrite initial_params.
  pose proof keys_apart as H. unfold amount_keys_apart in H.
  apply andb_true_iff in H as [[_ Hi]%andb_true_iff Hf].
  apply negb_true_iff in Hi, Hf.
  assert (String.eqb "currency" k = false) as Hck
    by (apply String.eqb_neq; congruence).
  assert (String.eqb ki k = false) as Hik
    by (apply String.eqb_neq; congruence).
  assert (String.eqb kf k = false) as Hfk
    by (apply String.eqb_neq; congruence).
  cbn [dict_get]. by rewrite Hck, Hik, Hfk.
Qed.

Lemma params_unreserved (pid : string) (account : pyval) (amount : Q)
    (comment : pyval) (blocked : pyseq) (account_type : pyval)
    (params : dict) (k : string) :
  generate_form_params ki kf pid account amount comment blocked account_type
  = Ok params →
  reserved_key k = false →
  dict_get k params
  = dict_get k [("currency", PInt 643);
                (ki, PInt (Z.quot (cents_of amount) 100));
                (kf, PInt (Z.rem (cents_of amount) 100))].
Proof.
  intros (_ & p & Hp & ->)%generate_form_params_inv.
  intros (_ & H2 & H3 & H4 & H5)%reserved_key_false.
  rewrite attach_account_type_other by done.
  rewrite (attach_blocked_other _ _ _ _ H5 Hp).
  rewrite attach_account_other, attach_comment_other by done.
  by rewrite initial_params.
Qed.

Lemma params_amount_fields (pid : string) (account : pyval) (amount : Q)
    (comment : pyval) (blocked : pyseq) (account_type : pyval)
    (params : dict) :
  generate_form_params ki kf pid account amount comment blocked account_type
  = Ok params →
  dict_get ki params = Some (PInt (Z.quot (cents_of amount) 100)) ∧
  dict_get kf params = Some (PInt (Z.rem (cents_of amount) 100)).
Proof.
  intros Hok.
  pose proof keys_apart as H. unfold amount_keys_apart in H.
  apply andb_true_iff in H as [[Hd Hi]%andb_true_iff Hf].
  apply negb_true_iff in Hd, Hi, Hf.
  rewrite !(params_unreserved _ _ _ _ _ _ _ _ Hok) by done.
  apply reserved_key_false in Hi as (Hi & _), Hf as (Hf & _).
  assert (String.eqb "currency" ki = false) as Hci
    by (by apply String.eqb_neq).
  assert (String.eqb "currency" kf = false) as Hcf
    by (by apply String.eqb_neq).
  cbn [dict_get]. by rewrite Hci, Hcf, Hd, !String.eqb_refl.
Qed.

Lemma params_comment (pid : string) (account : pyval) (amount : Q)
    (comment : pyval) (blocked : pyseq) (account_type : pyval)
    (params : dict) :
  generate_form_params ki kf pid account amount comment blocked account_type
  = Ok params →
  dict_get "extra['comment']" params
  = if String.eqb pid "99" && truthy comment then Some comment else None.
Proof.
  intros (_ & p & Hp & ->)%generate_form_params_inv.
  rewrite attach_account_type_other by done.
  rewrite (attach_blocked_other "extra['comment']" _ _ _ eq_refl Hp).
  rewrite attach_account_other by done.
  unfold attach_comment. destruct (_ && _).
  - apply dict_get_set_eq.
  - by apply initial_params_reserved.
Qed.

Lemma params_account (pid : string) (account : pyval) (amount : Q)
    (comment : pyval) (blocked : pyseq) (account_type : pyval)
    (params : dict) :
  generate_form_params ki kf pid account amount comment blocked account_type
  = Ok params →
  dict_get "extra['account']" params
  = if truthy account then Some account else None.
Proof.
  intros (_ & p & Hp & ->)%generate_form_params_inv.
  rewrite attach_account_type_other by done.
  rewrite (attach_blocked_other "extra['account']" _ _ _ eq_refl Hp).
  unfold attach_account. destruct (truthy account).
  - apply dict_get_set_eq.
  - rewrite attach_comment_other by done.
    by apply initial_params_reserved.
Qed.

Lemma params_account_type (pid : string) (account : pyval) (amount : Q)
    (comment : pyval) (blocked : pyseq) (account_type : pyval)
    (params : dict) :
  generate_form_params ki kf pid account amount comment blocked account_type
  = Ok params →
  dict_get "extra['accountType']" params
  = if String.eqb pid "99999" then
      if py_eq_int account_type 0 then Some (PStr "phone")
      else if py_eq_int account_type 1 then Some (PStr "nickname")
      else if is_str account_type then Some account_type
      else None
    else None.
Proof.
  intros (_ & p & Hp & ->)%generate_form_params_inv.
  assert (dict_get "extra['accountType']" p = None) as Hnone.
  { rewrite (attach_blocked_other "extra['accountType']" _ _ _ eq_refl Hp).
    rewrite attach_account_other, attach_comment_other by done.
    by apply initial_params_reserved. }
  unfold attach_account_type.
  destruct (String.eqb pid "99999"); cbn [andb]; [|done].
  repeat (case_match; [apply dict_get_set_eq|]). done.
Qed.

Lemma params_blocked_entries (pid : string) (account : pyval) (amount : Q)
    (comment : pyval) (entries : list pyval) (account_type : pyval)
    (params : dict) (i : nat) (entry : pyval) :
  generate_form_params ki kf pid account amount comment (SList entries)
    account_type = Ok params →
  entries !! i = Some entry →
  dict_get (blocked_key i) params = Some entry.
Proof.
  intros (_ & p & Hp & ->)%generate_form_params_inv Hi.
  rewrite attach_account_type_other
    by (apply not_eq_sym, not_blocked_key; done).
  unfold attach_blocked in Hp.
  destruct entries as [|e0 rest]; [done|].
  cbn [length Nat.ltb Nat.leb] in Hp.
  rewrite check_blocked_forallb in Hp.
  destruct (forallb _ _); [|done]. injection Hp as <-.
  by apply (sources_list_from_get "blocked" _ 0).
Qed.

Lemma params_not_blocked (pid : string) (account : pyval) (amount : Q)
    (comment : pyval) (blocked : pyseq) (account_type : pyval)
    (params : dict) (k : string) :
  is_list blocked = false →
  generate_form_params ki kf pid account amount comment blocked account_type
  = Ok params →
  String.prefix "blocked" k = true →
  dict_get k params = None.
Proof.
  intros Hl (_ & p & Hp & ->)%generate_form_params_inv Hk.
  rewrite attach_blocked_not_list in Hp by done. injection Hp as <-.
  rewrite attach_account_type_other, attach_account_other,
    attach_comment_other by (by intros ->).
  apply initial_params_reserved; [|by intros ->].
  unfold reserved_key. by rewrite Hk, orb_true_r.
Qed.

(** C1, as amended: for an amount above 0 and not above 99999 and blocked
    fields that pass their own check the call returns a link, and the link
    carries the two amount fields, whole units and cents below 100, which
    together are the amount in cents with the excess precision cut off; with
    blocked fields that fail their check the call raises their error. *)
Theorem amount_in_range_encoded (pid : string) (account : pyval)
    (amount : Q) (comment : pyval) (blocked : pyseq)
    (account_type : pyval) :
  (0 < amount)%Q → (amount <= 99999)%Q →
  (blocked_accepted blocked = false →
   generate_form_link ki kf pid account amount comment blocked account_type
   = Raise InvalidBlockedField)
  ∧ (blocked_accepted blocked = true →
     ∃ params i c,
       generate_form_link ki kf pid account amount comment blocked
         account_type = Ok (form_url pid params)
       ∧ dict_get ki params = Some (PInt i)
       ∧ dict_get kf params = Some (PInt c)
       ∧ 0 ≤ i ∧ 0 ≤ c < 100
       ∧ i * 100 + c = cents_of amount
       ∧ cents_of amount = Qfloor (amount * 100)
       ∧ occurs_in (quote_plus ki +:+ "=" +:+ pretty i)
           (form_url pid params)
       ∧ occurs_in (quote_plus kf +:+ "=" +:+ pretty c)
           (form_url pid params)).
Proof.
  intros Hpos Hle. apply Qlt_le_weak in Hpos.
  pose proof (cents_of_nonneg amount Hpos) as Hc.
  apply Qgt_bool_false in Hle. split; intros Hb.
  { rewrite generate_form_link_params. unfold generate_form_params.
    by rewrite Hle, attach_blocked_rejected. }
  assert (∃ params,
    generate_form_params ki kf pid account amount comment blocked
      account_type = Ok params) as [params Hok].
  { unfold generate_form_params. rewrite Hle.
    edestruct attach_blocked_accepted as [d' ->]; [done|]. by eexists. }
  destruct (params_amount_fields _ _ _ _ _ _ _ Hok) as [Hi Hf].
  assert (0 ≤ Z.quot (cents_of amount) 100) as Hq
    by (apply Z.quot_pos; lia).
  assert (0 ≤ Z.rem (cents_of amount) 100 < 100) as Hr
    by (apply Z.rem_bound_pos; lia).
  exists params, (Z.quot (cents_of amount) 100),
    (Z.rem (cents_of amount) 100).
  rewrite generate_form_link_params, Hok.
  repeat split; try done; try lia.
  - apply cents_of_split.
  - by apply cents_of_floor.
  - by apply form_url_occurs_int.
  - apply form_url_occurs_int; [lia | done].
Qed.

(** C4: the comment is a parameter of the link exactly when the provider
    is "99" and the comment is there; the account is one whenever it is
    there, whatever the provider. *)
Theorem comment_and_account_attached (pid : string) (account : pyval)
    (amount : Q) (comment : pyval) (blocked : pyseq)
    (account_type : pyval) (url : string) :
  generate_form_link ki kf pid account amount comment blocked account_type
  = Ok url →
  ∃ params,
    url = form_url pid params
    ∧ (pid = "99" ∧ truthy comment = true →
       dict_get "extra['comment']" params = Some comment)
    ∧ (¬ (pid = "99" ∧ truthy comment = true) →
       dict_get "extra['comment']" params = None)
    ∧ (truthy account = true →
       dict_get "extra['account']" params = Some account)
    ∧ (truthy account = false →
       dict_get "extra['account']" params = None).
Proof.
  intros (params & Hok & ->)%generate_form_link_Ok.
  exists params. split; [done|].
  rewrite (params_comment _ _ _ _ _ _ _ Hok),
    (params_account _ _ _ _ _ _ _ Hok).
  repeat split.
  - intros [-> ->]. done.
  - intros Hn. destruct (String.eqb_spec pid "99") as [-> |]; [|done].
    destruct (truthy comment); [|done]. by destruct Hn.
  - by intros ->.
  - by intros ->.
Qed.

(** C5: for the provider "99999" the account type 0 becomes "phone", 1
    becomes "nickname" and a string is passed as it is; for any other
    provider there is no account type in the link. *)
Theorem account_type_mapped (pid : string) (account : pyval) (amount : Q)
    (comment : pyval) (blocked : pyseq) (account_type : pyval)
    (url : string) :
  generate_form_link ki kf pid account amount comment blocked account_type
  = Ok url →
  ∃ params,
    url = form_url pid params
    ∧ (pid = "99999" → account_type = PInt 0 →
       dict_get "extra['accountType']" params = Some (PStr "phone"))
    ∧ (pid = "99999" → account_type = PInt 1 →
       dict_get "extra['accountType']" params = Some (PStr "nickname"))
    ∧ (∀ s, pid = "99999" → account_type = PStr s →
       dict_get "extra['accountType']" params = Some (PStr s))
    ∧ (pid ≠ "99999" → dict_get "extra['accountType']" params = None).
Proof.
  intros (params & Hok & ->)%generate_form_link_Ok.
  exists params. split; [done|].
  rewrite (params_account_type _ _ _ _ _ _ _ Hok).
  repeat split.
  - by intros -> ->.
  - by intros -> ->.
  - by intros s -> ->.
  - by intros ->%String.eqb_neq.
Qed.

Lemma params_blocked_values (pid : string) (account : pyval) (amount : Q)
    (comment : pyval) (entries : list pyval) (account_type : pyval)
    (params : dict) (k : string) (v : pyval) :
  generate_form_params ki kf pid account amount comment (SList entries)
    account_type = Ok params →
  String.prefix "blocked" k = true →
  dict_get k params = Some v →
  v ∈ entries.
Proof.
  intros (_ & p & Hp & ->)%generate_form_params_inv Hk.
  rewrite attach_account_type_other by (by intros ->).
  assert (dict_get k
            (attach_account account
               (attach_comment pid comment
                  (merge_dicts [("currency", PInt 643)]
                     (split_float ki kf amount)))) = None) as Hnone.
  { rewrite attach_account_other, attach_comment_other by (by intros ->).
    apply initial_params_reserved; [|by intros ->].
    unfold reserved_key. by rewrite Hk, orb_true_r. }
  unfold attach_blocked in Hp.
  destruct (0 <? length entries)%nat; [|injection Hp as <-; congruence].
  rewrite check_blocked_forallb in Hp.
  destruct (forallb _ _); [|done]. injection Hp as <-.
  intros [H | H]%sources_list_from_value; [congruence | done].
Qed.

(** C3, as amended: for a blocked argument that is a list, and an amount
    that passed its own check, an entry outside of sum, account and comment
    raises the error of the blocked fields; a list drawn from the three
    names is accepted, and its entries are what the link carries under the
    parameters whose name begins with blocked: every entry is the value of
    one, and each of them has an entry for its value. *)
Theorem blocked_list_checked (pid : string) (account : pyval) (amount : Q)
    (comment : pyval) (entries : list pyval) (account_type : pyval) :
  (amount <= 99999)%Q →
  ((∃ entry, entry ∈ entries ∧ entry ∉ blocked_names) →
   generate_form_link ki kf pid account amount comment (SList entries)
     account_type = Raise InvalidBlockedField)
  ∧ ((∀ entry, entry ∈ entries → entry ∈ blocked_names) →
     ∃ params,
       generate_form_link ki kf pid account amount comment (SList entries)
         account_type = Ok (form_url pid params)
       ∧ (∀ entry, entry ∈ entries →
            ∃ k, String.prefix "blocked" k = true
                 ∧ dict_get k params = Some entry
                 ∧ occurs_in (urlencode_pair (k, entry))
                     (form_url pid params))
       ∧ (∀ k v, String.prefix "blocked" k = true →
            dict_get k params = Some v → v ∈ entries)).
Proof.
  intros Hle. apply Qgt_bool_false in Hle. split.
  - intros (entry & Hin & Hout).
    rewrite generate_form_link_params. unfold generate_form_params.
    rewrite Hle. unfold attach_blocked.
    destruct entries as [|e0 rest]; [by apply elem_of_nil in Hin|].
    cbn [length Nat.ltb Nat.leb]. rewrite check_blocked_forallb.
    destruct (forallb allowed_blocked (e0 :: rest)) eqn:Hall; [|done].
    rewrite forallb_forall in Hall. destruct Hout.
    by apply allowed_blocked_names, Hall, list_elem_of_In.
  - intros Hall.
    assert (blocked_accepted (SList entries) = true) as Hacc.
    { apply forallb_forall. intros entry Hin.
      by apply allowed_blocked_names, Hall, list_elem_of_In. }
    assert (∃ params,
      generate_form_params ki kf pid account amount comment
        (SList entries) account_type = Ok params) as [params Hok].
    { unfold generate_form_params. rewrite Hle.
      edestruct attach_blocked_accepted as [d' ->]; [done|]. by eexists. }
    exists params. rewrite generate_form_link_params, Hok.
    split; [done|]. split.
    + intros entry [i Hi]%list_elem_of_lookup.
      pose proof (params_blocked_entries _ _ _ _ _ _ _ _ _ Hok Hi) as Hget.
      exists (blocked_key i).
      split; [apply blocked_key_prefix|]. split; [done|].
      by apply form_url_occurs.
    + intros k v Hk Hget. by apply (params_blocked_values _ _ _ _ _ _ _ _ _ Hok Hk).
Qed.

(** C8: a blocked argument that is no list is neither checked nor
    attached: the call does what it does without the argument, it never
    raises the error of the blocked fields, and no parameter of the link
    has a name that begins with blocked. *)
Theorem blocked_not_list_ignored (pid : string) (account : pyval)
    (amount : Q) (comment : pyval) (blocked : pyseq)
    (account_type : pyval) :
  is_list blocked = false →
  generate_form_link ki kf pid account amount comment blocked account_type
  = generate_form_link ki kf pid account amount comment (SScalar PNone)
      account_type
  ∧ generate_form_link ki kf pid account amount comment blocked
      account_type ≠ Raise InvalidBlockedField
  ∧ ∀ url,
      generate_form_link ki kf pid account amount comment blocked
        account_type = Ok url →
      ∃ params,
        url = form_url pid params
        ∧ ∀ k, String.prefix "blocked" k = true →
            dict_get k params = None.
Proof.
  intros Hl. repeat split.
  - rewrite !generate_form_link_params. unfold generate_form_params.
    by rewrite !attach_blocked_not_list.
  - rewrite generate_form_link_params. unfold generate_form_params.
    rewrite attach_blocked_not_list by done.
    by destruct (Qgt_bool amount 99999).
  - intros url (params & Hok & ->)%generate_form_link_Ok.
    exists params. split; [done|]. intros k Hk.
    by apply (params_not_blocked _ _ _ _ _ _ _ _ Hl Hok).
Qed.

(** C9: a comment or an account that Python takes for false, the empty
    string among them, is left out of the link, also for the provider
    "99". *)
Theorem falsy_extras_left_out (pid : string) (account : pyval) (amount : Q)
    (comment : pyval) (blocked : pyseq) (account_type : pyval)
    (url : string) :
  generate_form_link ki kf pid account amount comment blocked account_type
  = Ok url →
  truthy (PStr "") = false
  ∧ ∃ params,
      url = form_url pid params
      ∧ (truthy comment = false →
         dict_get "extra['comment']" params = None)
      ∧ (truthy account = false →
         dict_get "extra['account']" params = None).
Proof.
  intros (params & Hok & ->)%generate_form_link_Ok.
  split; [done|]. exists params. split; [done|].
  rewrite (params_comment _ _ _ _ _ _ _ Hok),
    (params_account _ _ _ _ _ _ _ Hok).
  split; intros ->; [|done]. by rewrite andb_false_r.
Qed.

End FormLinkFacts.

(** ** The balance of the wallet *)

Lemma json_truthy_nonzero (v : json) : json_truthy v = true ↔ nonzero v.
Proof.
  destruct v as [| b | q | s]; simpl.
  - done.
  - done.
  - rewrite negb_true_iff, <- not_true_iff_false. by rewrite Qeq_bool_iff.
  - by rewrite negb_true_iff, String.eqb_neq.
Qed.

Lemma usable_test (cur : Z) (account : Account.t) :
  (Account.currency account =? cur)
  && balance_truthy (Account.balance account)
  && json_truthy (balance_amount (Account.balance account)) = true
  ↔ usable cur account.
Proof.
  unfold usable. rewrite !andb_true_iff, Z.eqb_eq, json_truthy_nonzero.
  destruct (Account.balance account) as [d|]; simpl.
  - unfold json_get. split.
    + intros [[Hc _] Hv]. split; [done|].
      destruct (d !! "amount") as [v|] eqn:Hd; [|done].
      by exists d, v.
    + intros (Hc & d' & v & [= <-] & Hd & Hv). rewrite Hd. simpl.
      repeat split; try done.
      apply negb_true_iff, bool_decide_eq_false. intros ->.
      by rewrite lookup_empty in Hd.
  - split; [by intros [[_ ?] _] | by intros (_ & d & v & ? & _)].
Qed.

(** C6: the lookup returns the amount of the first account of the currency
    whose balance is there with an amount that is not zero; when no account
    is such, also when accounts of the currency are there with no balance, no
    amount or the amount zero, it raises the error and returns no zero. *)
Theorem balance_first_usable (accounts : list Account.t) (cur : Z) :
  (∀ v, balance accounts cur = Ok v ↔
     ∃ pre account post d,
       accounts = pre ++ account :: post
       ∧ Forall (λ a, ¬ usable cur a) pre
       ∧ usable cur account
       ∧ Account.balance account = Some d ∧ d !! "amount" = Some v)
  ∧ (balance accounts cur = Raise NoUsableBalance ↔
     Forall (λ a, ¬ usable cur a) accounts)
  ∧ (∀ v, balance accounts cur = Ok v → nonzero v)
  ∧ (∀ pre account post d q,
       accounts = pre ++ account :: post →
       Forall (λ a, ¬ usable cur a) pre →
       Account.currency account = cur →
       Account.balance account = Some d →
       d !! "amount" = Some (JNum q) → ¬ (q == 0)%Q →
       balance accounts cur = Ok (JNum q))
  ∧ ((∀ a, a ∈ accounts → Account.currency a = cur →
        Account.balance a = None
        ∨ ∃ d, Account.balance a = Some d
               ∧ (d !! "amount" = None
                  ∨ ∃ q, d !! "amount" = Some (JNum q) ∧ (q == 0)%Q)) →
     balance accounts cur = Raise NoUsableBalance).
Proof.
  assert (∀ v, balance accounts cur = Ok v ↔
     ∃ pre account post d,
       accounts = pre ++ account :: post
       ∧ Forall (λ a, ¬ usable cur a) pre
       ∧ usable cur account
       ∧ Account.balance account = Some d ∧ d !! "amount" = Some v) as Hfirst.
  { induction accounts as [|a rest IH]; intros v; simpl.
    - split; [done|]. intros (pre & ? & ? & ? & E & _). by destruct pre.
    - destruct (_ && _) eqn:Htest.
      + apply usable_test in Htest. split.
        * intros [= <-]. destruct Htest as (Hc & d & v & Hb & Hd & Hv).
          exists [], a, rest, d. rewrite Hb. simpl. unfold json_get.
          rewrite Hd. simpl. repeat split; try done. by exists d, v.
        * intros (pre & a' & post & d & E & Hpre & Hu & Hb & Hd).
          destruct pre as [|a0 pre]; simplify_eq/=.
          -- rewrite Hb. simpl. unfold json_get. by rewrite Hd.
          -- by apply Forall_cons in Hpre as [? _].
      + assert (¬ usable cur a) as Hn
          by (rewrite <- usable_test; congruence).
        rewrite IH. split.
        * intros (pre & a' & post & d & -> & Hpre & Hrest).
          exists (a :: pre), a', post, d. split; [done|].
          split; [by constructor | done].
        * intros (pre & a' & post & d & E & Hpre & Hu & Hrest).
          destruct pre as [|a0 pre]; simplify_eq/=; [done|].
          apply Forall_cons in Hpre as [_ Hpre].
          by exists pre, a', post, d. }
  assert (balance accounts cur = Raise NoUsableBalance ↔
     Forall (λ a, ¬ usable cur a) accounts) as Hnone.
  { clear Hfirst. induction accounts as [|a rest IH]; simpl.
    - split; [by constructor | done].
    - destruct (_ && _) eqn:Htest.
      + apply usable_test in Htest. split; [done|].
        by intros [? _]%Forall_cons.
      + rewrite IH. split.
        * intros Hrest. constructor; [|done].
          rewrite <- usable_test. congruence.
        * by intros [_ ?]%Forall_cons. }
  split; [exact Hfirst|]. split; [exact Hnone|]. split; [|split].
  - intros v (pre & a & post & d & _ & _ & Hu & Hb & Hd)%Hfirst.
    destruct Hu as (_ & d' & v' & Hb' & Hd' & Hv). congruence.
  - intros pre account post d q Hs Hpre Hc Hb Hd Hq.
    apply Hfirst. exists pre, account, post, d.
    repeat split; try done. by exists d, (JNum q).
  - intros Hall. apply Hnone, Forall_forall. intros a Hin.
    intros (Hc & d & v & Hb & Hd & Hv).
    destruct (Hall a Hin Hc) as [Hnb | (d' & Hb' & Hd')]; [congruence|].
    assert (d' = d) as -> by congruence.
    destruct Hd' as [Hd' | (q & Hd' & Hq)]; [congruence|].
    assert (v = JNum q) as -> by congruence. by simpl in Hv.
Qed.

(** ** The identification *)

(** C7: whatever the service answers, the caller's tax id is written under
    the key base_inn into the response before it is decoded, the other keys
    staying as they are, and the identity that comes out carries it. *)
Theorem identification_carries_inn
    (api : string → string → string → string → string → string → string →
           json → string → string → gmap string json)
    (token number birth_date first_name middle_name last_name
       passport : string) (inn : json) (snils oms : string) :
  let response :=
    api token number birth_date first_name middle_name last_name passport
      inn snils oms in
  let sent :=
    identification_json api token number birth_date first_name middle_name
      last_name passport inn snils oms in
  let identity :=
    identification api token number birth_date first_name middle_name
      last_name passport inn snils oms in
  sent !! "base_inn" = Some inn
  ∧ (∀ k, k ≠ "base_inn" → sent !! k = response !! k)
  ∧ identity = Identity_de_json sent
  ∧ base_inn identity = inn
  ∧ echoed identity = delete "base_inn" response.
Proof.
  intros response sent identity.
  subst sent identity. unfold identification, identification_json.
  fold response. repeat split.
  - apply lookup_insert_eq.
  - intros k Hk. by apply lookup_insert_ne.
  - simpl. unfold json_get. by rewrite lookup_insert_eq.
  - simpl. apply delete_insert_eq.
Qed.

(** ** The number of the wallet *)

Lemma str_replace_without (c : ascii) (s : string) :
  str_replace c "" s = without_char c s.
Proof.
  unfold without_char. induction s as [|a s IH]; [done|].
  cbn [str_replace String.list_ascii_of_string].
  rewrite filter_cons. destruct (Ascii.eqb_spec a c) as [-> | Hne].
  - rewrite decide_False by (by intros []). apply IH.
  - rewrite decide_True by done. cbn. by rewrite <- IH.
Qed.

Lemma without_char_free (c : ascii) (s : string) :
  c ∉ String.list_ascii_of_string (without_char c s).
Proof.
  unfold without_char. rewrite String.list_ascii_of_string_of_list_ascii.
  by intros [? _]%list_elem_of_filter.
Qed.

(** C10: a wallet number that is a string is stored without its plus signs,
    and with a leading 8 of what is left turned into 7; another kind of
    number is not stored by the branch. *)
Theorem number_normalized :
  (∀ s, ∃ t,
     init_number (PStr s) = Some t
     ∧ (∀ r, without_char "+" s = String "8" r → t = String "7" r)
     ∧ (String.prefix "8" (without_char "+" s) = false →
        t = without_char "+" s)
     ∧ ("+"%char ∉ String.list_ascii_of_string t)
     ∧ ∀ (E : Type) (contract_id : E + string) token auth_info user_info,
         ∃ wallet,
           Wallet_init contract_id token (PStr s) false auth_info user_info
           = inr wallet
           ∧ number wallet = Some t)
  ∧ (∀ v, is_str v = false → init_number v = None).
Proof.
  split; [|by intros []].
  intros s. unfold Wallet_init, init_number.
  rewrite str_replace_without.
  pose proof (without_char_free "+" s) as Hfree.
  destruct (without_char "+" s) as [|a r] eqn:E.
  - exists "". repeat split; try done. intros. by eexists.
  - cbn [String.prefix]. destruct (Ascii.ascii_dec "8" a) as [Ha | Hne].
    + subst a. exists (String "7" r). replace (String.prefix "" r) with true
        by (by destruct r).
      split; [done|]. split; [by intros r' [= ->]|]. split; [done|].
      split; [|intros; by eexists].
      cbn. intros [? | ?]%elem_of_cons; [done|].
      apply Hfree. cbn. by right.
    + exists (String a r).
      split; [done|]. split; [by intros r' [= -> _]|]. split; [done|].
      split; [done | intros; by eexists].
Qed.

(** ** The statements at work

    The form of the service names the two amount fields [amountInteger] and
    [amountFraction]. *)

(** The scenario of the specification: 100.5 to the wallet 79991234567. *)
Example link_of_scenario :
  generate_form_link "amountInteger" "amountFraction" "99"
    (PStr "79991234567") (201 # 2) (PStr "hi") (SScalar PNone) PNone
  = Ok ("https://qiwi.com/payment/form/99?currency=643&amountInteger=100"
        +:+ "&amountFraction=50&extra%5B%27comment%27%5D=hi"
        +:+ "&extra%5B%27account%27%5D=79991234567").
Proof. vm_compute. reflexivity. Qed.

(** The scenario of the specification: 100000 is refused. *)
Example link_of_large_amount :
  generate_form_link "amountInteger" "amountFraction" "1" PNone 100000 PNone
    (SScalar PNone) PNone
  = Raise AmountTooLarge.
Proof. reflexivity. Qed.

(** An amount in the range with a blocked list that holds another name: the
    call raises. *)
Lemma amount_in_range_refused :
  generate_form_link "amountInteger" "amountFraction" "99"
    (PStr "79991234567") (201 # 2) (PStr "hi") (SList [PStr "nope"]) PNone
  = Raise InvalidBlockedField.
Proof. reflexivity. Qed.

Lemma amount_in_range_encoded_witness :
  (0 < 201 # 2)%Q ∧ (201 # 2 <= 99999)%Q ∧
  (blocked_accepted (SScalar PNone) = false →
   generate_form_link "amountInteger" "amountFraction" "99"
     (PStr "79991234567") (201 # 2) (PStr "hi") (SScalar PNone) PNone
   = Raise InvalidBlockedField)
  ∧ (blocked_accepted (SScalar PNone) = true →
     ∃ params i c,
       generate_form_link "amountInteger" "amountFraction" "99"
         (PStr "79991234567") (201 # 2) (PStr "hi") (SScalar PNone) PNone
       = Ok (form_url "99" params)
       ∧ dict_get "amountInteger" params = Some (PInt i)
       ∧ dict_get "amountFraction" params = Some (PInt c)
       ∧ 0 ≤ i ∧ 0 ≤ c < 100
       ∧ i * 100 + c = cents_of (201 # 2)
       ∧ cents_of (201 # 2) = Qfloor ((201 # 2) * 100)
       ∧ occurs_in (quote_plus "amountInteger" +:+ "=" +:+ pretty i)
           (form_url "99" params)
       ∧ occurs_in (quote_plus "amountFraction" +:+ "=" +:+ pretty c)
           (form_url "99" params)).
Proof.
  split; [reflexivity|]. split; [unfold Qle; simpl; lia|].
  apply (amount_in_range_encoded "amountInteger" "amountFraction" eq_refl).
  - reflexivity.
  - unfold Qle; simpl; lia.
Defined.

Lemma amount_above_limit_raises_witness :
  (99999 < 100000)%Q ∧
  generate_form_link "amountInteger" "amountFraction" "1" PNone 100000 PNone
    (SList [PStr "nope"]) PNone
  = Raise AmountTooLarge
  ∧ generate_form_link "amountInteger" "amountFraction" "1" PNone 100000
      PNone (SList [PStr "nope"]) PNone
    = generate_form_link_validated_first "amountInteger" "amountFraction"
        "1" PNone 100000 PNone (SList [PStr "nope"]) PNone.
Proof.
  split; [reflexivity|].
  apply amount_above_limit_raises. reflexivity.
Defined.

(** A tuple with a name outside of sum, account and comment is not refused,
    and nothing of it reaches the link; and above 99999 a list of allowed
    names is refused, and a list with another name is refused for the
    amount, not for the name. *)
Lemma blocked_claim_refuted :
  generate_form_link "amountInteger" "amountFraction" "99"
    (PStr "79991234567") 1 PNone (STuple [PStr "nope"]) PNone
  = Ok ("https://qiwi.com/payment/form/99?currency=643&amountInteger=1"
        +:+ "&amountFraction=0&extra%5B%27account%27%5D=79991234567")
  ∧ generate_form_link "amountInteger" "amountFraction" "99"
      (PStr "79991234567") 100000 PNone (SList [PStr "sum"]) PNone
    = Raise AmountTooLarge
  ∧ generate_form_link "amountInteger" "amountFraction" "99"
      (PStr "79991234567") 100000 PNone (SList [PStr "nope"]) PNone
    = Raise AmountTooLarge.
Proof. split; [vm_compute; reflexivity|]. split; reflexivity. Qed.

Lemma blocked_list_checked_witness :
  (1 <= 99999)%Q
  ∧ generate_form_link "amountInteger" "amountFraction" "99"
      (PStr "79991234567") 1 PNone (SList [PStr "sum"; PStr "nope"]) PNone
    = Raise InvalidBlockedField
  ∧ ∃ params,
      generate_form_link "amountInteger" "amountFraction" "99"
        (PStr "79991234567") 1 PNone (SList [PStr "sum"; PStr "comment"])
        PNone = Ok (form_url "99" params)
      ∧ (∀ entry, entry ∈ [PStr "sum"; PStr "comment"] →
           ∃ k, String.prefix "blocked" k = true
                ∧ dict_get k params = Some entry
                ∧ occurs_in (urlencode_pair (k, entry))
                    (form_url "99" params))
      ∧ (∀ k v, String.prefix "blocked" k = true →
           dict_get k params = Some v →
           v ∈ [PStr "sum"; PStr "comment"]).
Proof.
  assert (1 <= 99999)%Q as Hle by (unfold Qle; simpl; lia).
  split; [exact Hle|]. split.
  - apply (blocked_list_checked "amountInteger" "amountFraction" eq_refl
             "99" (PStr "79991234567") 1 PNone [PStr "sum"; PStr "nope"]
             PNone Hle).
    exists (PStr "nope"). split.
    + apply list_elem_of_further, list_elem_of_here.
    + unfold blocked_names. intros H.
      repeat (apply elem_of_cons in H as [H | H]; [discriminate|]).
      by apply elem_of_nil in H.
  - apply (blocked_list_checked "amountInteger" "amountFraction" eq_refl
             "99" (PStr "79991234567") 1 PNone [PStr "sum"; PStr "comment"]
             PNone Hle).
    intros entry H. unfold blocked_names.
    apply elem_of_cons in H as [-> | H]; [apply list_elem_of_here|].
    apply elem_of_cons in H as [-> | H];
      [do 2 apply list_elem_of_further; apply list_elem_of_here|].
    by apply elem_of_nil in H.
Defined.

(** The link of the witness above: both names are attached. *)
Example link_with_blocked :
  generate_form_link "amountInteger" "amountFraction" "99"
    (PStr "79991234567") 1 PNone (SList [PStr "sum"; PStr "comment"]) PNone
  = Ok ("https://qiwi.com/payment/form/99?currency=643&amountInteger=1"
        +:+ "&amountFraction=0&extra%5B%27account%27%5D=79991234567"
        +:+ "&blocked%5B0%5D=sum&blocked%5B1%5D=comment").
Proof. vm_compute. reflexivity. Qed.

(** A list with a name outside of the three is refused. *)
Example link_with_wrong_blocked :
  generate_form_link "amountInteger" "amountFraction" "99"
    (PStr "79991234567") 1 PNone (SList [PStr "sum"; PStr "nope"]) PNone
  = Raise InvalidBlockedField.
Proof. reflexivity. Qed.

Lemma comment_and_account_attached_witness :
  generate_form_link "amountInteger" "amountFraction" "99"
    (PStr "79991234567") (201 # 2) (PStr "hi") (SScalar PNone) PNone
  = Ok ("https://qiwi.com/payment/form/99?currency=643&amountInteger=100"
        +:+ "&amountFraction=50&extra%5B%27comment%27%5D=hi"
        +:+ "&extra%5B%27account%27%5D=79991234567")
  ∧ ∃ params,
      "https://qiwi.com/payment/form/99?currency=643&amountInteger=100"
        +:+ "&amountFraction=50&extra%5B%27comment%27%5D=hi"
        +:+ "&extra%5B%27account%27%5D=79991234567" = form_url "99" params
      ∧ ("99" = "99" ∧ truthy (PStr "hi") = true →
         dict_get "extra['comment']" params = Some (PStr "hi"))
      ∧ (¬ ("99" = "99" ∧ truthy (PStr "hi") = true) →
         dict_get "extra['comment']" params = None)
      ∧ (truthy (PStr "79991234567") = true →
         dict_get "extra['account']" params = Some (PStr "79991234567"))
      ∧ (truthy (PStr "79991234567") = false →
         dict_get "extra['account']" params = None).
Proof.
  split; [vm_compute; reflexivity|].
  apply (comment_and_account_attached "amountInteger" "amountFraction"
           eq_refl "99" (PStr "79991234567") (201 # 2) (PStr "hi")
           (SScalar PNone) PNone).
  vm_compute; reflexivity.
Defined.

(** For another provider the comment is dropped. *)
Example link_without_comment :
  generate_form_link "amountInteger" "amountFraction" "1"
    (PStr "79991234567") (201 # 2) (PStr "hi") (SScalar PNone) PNone
  = Ok ("https://qiwi.com/payment/form/1?currency=643&amountInteger=100"
        +:+ "&amountFraction=50&extra%5B%27account%27%5D=79991234567").
Proof. vm_compute. reflexivity. Qed.

Lemma account_type_mapped_witness :
  generate_form_link "amountInteger" "amountFraction" "99999"
    (PStr "nick") 10 PNone (SScalar PNone) (PInt 1)
  = Ok ("https://qiwi.com/payment/form/99999?currency=643&amountInteger=10"
        +:+ "&amountFraction=0&extra%5B%27account%27%5D=nick"
        +:+ "&extra%5B%27accountType%27%5D=nickname")
  ∧ ∃ params,
      "https://qiwi.com/payment/form/99999?currency=643&amountInteger=10"
        +:+ "&amountFraction=0&extra%5B%27account%27%5D=nick"
        +:+ "&extra%5B%27accountType%27%5D=nickname"
      = form_url "99999" params
      ∧ ("99999" = "99999" → PInt 1 = PInt 0 →
         dict_get "extra['accountType']" params = Some (PStr "phone"))
      ∧ ("99999" = "99999" → PInt 1 = PInt 1 →
         dict_get "extra['accountType']" params = Some (PStr "nickname"))
      ∧ (∀ s, "99999" = "99999" → PInt 1 = PStr s →
         dict_get "extra['accountType']" params = Some (PStr s))
      ∧ ("99999" ≠ "99999" →
         dict_get "extra['accountType']" params = None).
Proof.
  split; [vm_compute; reflexivity|].
  apply (account_type_mapped "amountInteger" "amountFraction" eq_refl
           "99999" (PStr "nick") 10 PNone (SScalar PNone) (PInt 1)).
  vm_compute; reflexivity.
Defined.

(** The account type of the other kinds: 0, a string, and a provider that
    has none. *)
Example link_account_type_phone :
  generate_form_link "amountInteger" "amountFraction" "99999"
    (PStr "79991234567") 10 PNone (SScalar PNone) (PInt 0)
  = Ok ("https://qiwi.com/payment/form/99999?currency=643&amountInteger=10"
        +:+ "&amountFraction=0&extra%5B%27account%27%5D=79991234567"
        +:+ "&extra%5B%27accountType%27%5D=phone").
Proof. vm_compute. reflexivity. Qed.

Example link_account_type_verbatim :
  generate_form_link "amountInteger" "amountFraction" "99999"
    (PStr "nick") 10 PNone (SScalar PNone) (PStr "card")
  = Ok ("https://qiwi.com/payment/form/99999?currency=643&amountInteger=10"
        +:+ "&amountFraction=0&extra%5B%27account%27%5D=nick"
        +:+ "&extra%5B%27accountType%27%5D=card").
Proof. vm_compute. reflexivity. Qed.

Example link_account_type_other_provider :
  generate_form_link "amountInteger" "amountFraction" "99"
    (PStr "79991234567") 10 PNone (SScalar PNone) (PInt 1)
  = Ok ("https://qiwi.com/payment/form/99?currency=643&amountInteger=10"
        +:+ "&amountFraction=0&extra%5B%27account%27%5D=79991234567").
Proof. vm_compute. reflexivity. Qed.

Lemma blocked_not_list_ignored_witness :
  is_list (STuple [PStr "nope"]) = false
  ∧ generate_form_link "amountInteger" "amountFraction" "99"
      (PStr "79991234567") 1 PNone (STuple [PStr "nope"]) PNone
    = generate_form_link "amountInteger" "amountFraction" "99"
        (PStr "79991234567") 1 PNone (SScalar PNone) PNone
  ∧ generate_form_link "amountInteger" "amountFraction" "99"
      (PStr "79991234567") 1 PNone (STuple [PStr "nope"]) PNone
    ≠ Raise InvalidBlockedField
  ∧ ∀ url,
      generate_form_link "amountInteger" "amountFraction" "99"
        (PStr "79991234567") 1 PNone (STuple [PStr "nope"]) PNone = Ok url →
      ∃ params,
        url = form_url "99" params
        ∧ ∀ k, String.prefix "blocked" k = true → dict_get k params = None.
Proof.
  split; [reflexivity|].
  apply (blocked_not_list_ignored "amountInteger" "amountFraction" eq_refl).
  reflexivity.
Defined.

Lemma falsy_extras_left_out_witness :
  generate_form_link "amountInteger" "amountFraction" "99" (PStr "") 1
    (PStr "") (SScalar PNone) PNone
  = Ok ("https://qiwi.com/payment/form/99?currency=643&amountInteger=1"
        +:+ "&amountFraction=0")
  ∧ truthy (PStr "") = false
  ∧ ∃ params,
      "https://qiwi.com/payment/form/99?currency=643&amountInteger=1"
        +:+ "&amountFraction=0" = form_url "99" params
      ∧ (truthy (PStr "") = false →
         dict_get "extra['comment']" params = None)
      ∧ (truthy (PStr "") = false →
         dict_get "extra['account']" params = None).
Proof.
  split; [vm_compute; reflexivity|].
  apply (falsy_extras_left_out "amountInteger" "amountFraction" eq_refl
           "99" (PStr "") 1 (PStr "") (SScalar PNone) PNone).
  vm_compute; reflexivity.
Defined.

(** ** The wallet at work *)

Example balance_skips_empty_accounts :
  balance
    [ {| Account.alias := "qw_wallet_rub"; Account.currency := 643; Account.balance := None |};
      {| Account.alias := "qw_wallet_usd"; Account.currency := 840;
         Account.balance := Some {[ "amount" := JNum 7 ]} |};
      {| Account.alias := "mc_beeline_rub"; Account.currency := 643;
         Account.balance := Some {[ "amount" := JNum 0 ]} |};
      {| Account.alias := "qw_wallet_rub"; Account.currency := 643;
         Account.balance := Some {[ "amount" := JNum (25 # 2) ]} |} ] 643
  = Ok (JNum (25 # 2)).
Proof. reflexivity. Qed.

Example balance_of_zero_raises :
  balance
    [ {| Account.alias := "qw_wallet_rub"; Account.currency := 643;
         Account.balance := Some {[ "amount" := JNum 0 ]} |} ] 643
  = Raise NoUsableBalance.
Proof. reflexivity. Qed.

Example number_of_wallet :
  init_number (PStr "+8999+1234567") = Some "79991234567"
  ∧ init_number (PStr "+79991234567") = Some "79991234567"
  ∧ init_number (PStr "88") = Some "78"
  ∧ init_number (PInt 79991234567) = None.
Proof. repeat split. Qed.

(** * Beyond the claims *)

(** ** The encoding of names and values *)

Lemma hex_digit_inj (n m : N) :
  (n < 16)%N → (m < 16)%N → hex_digit n = hex_digit m → n = m.
Proof.
  intros Hn Hm.
  assert (n = 0 ∨ n = 1 ∨ n = 2 ∨ n = 3 ∨ n = 4 ∨ n = 5 ∨ n = 6 ∨ n = 7
          ∨ n = 8 ∨ n = 9 ∨ n = 10 ∨ n = 11 ∨ n = 12 ∨ n = 13 ∨ n = 14
          ∨ n = 15)%N as Hn' by lia.
  assert (m = 0 ∨ m = 1 ∨ m = 2 ∨ m = 3 ∨ m = 4 ∨ m = 5 ∨ m = 6 ∨ m = 7
          ∨ m = 8 ∨ m = 9 ∨ m = 10 ∨ m = 11 ∨ m = 12 ∨ m = 13 ∨ m = 14
          ∨ m = 15)%N as Hm' by lia.
  clear Hn Hm.
  repeat (destruct Hn' as [-> | Hn']); try subst n;
    repeat (destruct Hm' as [-> | Hm']); try subst m;
    simpl; intros H; try reflexivity; discriminate H.
Qed.

Lemma hex_digit_safe (n : N) : always_safe (hex_digit n) = true.
Proof. unfold hex_digit. by repeat case_match. Qed.

Lemma N_of_ascii_bound (c : ascii) : (N_of_ascii c < 256)%N.
Proof. apply N_ascii_bounded. Qed.

Lemma N_of_ascii_inj (c1 c2 : ascii) : N_of_ascii c1 = N_of_ascii c2 → c1 = c2.
Proof.
  intros H. rewrite <- (ascii_N_embedding c1), <- (ascii_N_embedding c2).
  by rewrite H.
Qed.

Lemma quote_plus_inj (s1 s2 : string) :
  quote_plus s1 = quote_plus s2 → s1 = s2.
Proof.
  revert s2. induction s1 as [|c1 s1 IH]; intros [|c2 s2]; simpl.
  - done.
  - by repeat case_match.
  - by repeat case_match.
  - destruct (always_safe c1) eqn:S1, (always_safe c2) eqn:S2.
    + intros [= -> H]. f_equal. by apply IH.
    + destruct (Ascii.eqb c2 " "); intros [= -> H]; discriminate S1.
    + destruct (Ascii.eqb c1 " "); intros [= <- H]; discriminate S2.
    + destruct (Ascii.eqb_spec c1 " ") as [-> | N1],
        (Ascii.eqb_spec c2 " ") as [-> | N2]; try (intros [=]; fail).
      * intros [= H]. f_equal. by apply IH.
      * intros [= Hh Hl H]. f_equal; [|by apply IH].
        pose proof (N_of_ascii_bound c1). pose proof (N_of_ascii_bound c2).
        apply hex_digit_inj in Hh;
          [|by apply N.Div0.div_lt_upper_bound..].
        apply hex_digit_inj in Hl; [|by apply N.mod_lt..].
        apply N_of_ascii_inj.
        rewrite (N.div_mod (N_of_ascii c1) 16), (N.div_mod (N_of_ascii c2) 16)
          by done.
        by rewrite Hh, Hl.
Qed.

Lemma quote_plus_chars (s : string) :
  str_forall query_char (quote_plus s) = true.
Proof.
  induction s as [|c s IH]; simpl; [done|].
  unfold query_char at 1.
  destruct (always_safe c) eqn:S; simpl; [by rewrite S|].
  destruct (Ascii.eqb c " "); simpl; [done|].
  unfold query_char. by rewrite !hex_digit_safe.
Qed.

(** ** Strings cut at a separator *)

Lemma str_app_cons (c : ascii) (s t : string) :
  String c s +:+ t = String c (s +:+ t).
Proof. done. Qed.

Lemma str_forall_app (p : ascii → bool) (s t : string) :
  str_forall p (s +:+ t) = str_forall p s && str_forall p t.
Proof.
  induction s as [|c s IH]; [done|].
  rewrite str_app_cons. simpl. by rewrite IH, andb_assoc.
Qed.

Lemma str_forall_impl (p q : ascii → bool) (s : string) :
  (∀ c, p c = true → q c = true) →
  str_forall p s = true → str_forall q s = true.
Proof.
  intros Hpq. induction s as [|c s IH]; simpl; [done|].
  intros [Hc Hs]%andb_true_iff. by rewrite (Hpq c Hc), IH.
Qed.

Lemma query_chars_free (c : ascii) (s : string) :
  query_char c = false →
  str_forall query_char s = true → str_free c s = true.
Proof.
  intros Hc. apply str_forall_impl. intros x Hx.
  apply negb_true_iff. destruct (Ascii.eqb_spec x c) as [-> |]; congruence.
Qed.

Lemma str_free_occurrence (c : ascii) (s t : string) :
  str_free c (s +:+ String c t) = false.
Proof.
  unfold str_free. rewrite str_forall_app. simpl.
  by rewrite Ascii.eqb_refl, andb_false_r.
Qed.

Lemma split_at_first (c : ascii) (a1 a2 r1 r2 : string) :
  str_free c a1 = true → str_free c a2 = true →
  a1 +:+ String c r1 = a2 +:+ String c r2 → a1 = a2 ∧ r1 = r2.
Proof.
  unfold str_free.
  revert a2. induction a1 as [|x a1 IH]; intros [|y a2] H1 H2;
    rewrite ?str_app_cons; change ("" +:+ ?t) with t.
  - by intros [= ->].
  - intros [= <- _]. simpl in H2. by rewrite Ascii.eqb_refl in H2.
  - intros [= -> _]. simpl in H1. by rewrite Ascii.eqb_refl in H1.
  - intros [= -> H]. simpl in H1, H2.
    apply andb_true_iff in H1 as [_ H1], H2 as [_ H2].
    destruct (IH a2 H1 H2 H) as [-> ->]. done.
Qed.

Lemma split_at_last (c : ascii) (p1 p2 q1 q2 : string) :
  str_free c q1 = true → str_free c q2 = true →
  p1 +:+ String c q1 = p2 +:+ String c q2 → p1 = p2 ∧ q1 = q2.
Proof.
  intros H1 H2. revert p2. induction p1 as [|x p1 IH]; intros [|y p2];
    rewrite ?str_app_cons; change ("" +:+ ?t) with t.
  - by intros [= ->].
  - intros [= _ E]. by rewrite E, str_free_occurrence in H1.
  - intros [= _ E]. by rewrite <- E, str_free_occurrence in H2.
  - intros [= -> H]. by destruct (IH p2 H) as [-> ->].
Qed.

(** ** The query string determines the parameters *)

Lemma urlencode_pair_shape (kv : string * pyval) :
  urlencode_pair kv
  = quote_plus (fst kv) +:+ String "=" (quote_plus (py_str (snd kv))).
Proof. done. Qed.

Lemma concat_cons_cons (x y : string) (l : list string) :
  String.concat "&" (x :: y :: l)
  = x +:+ String "&" (String.concat "&" (y :: l)).
Proof. done. Qed.

Lemma concat_singleton (sep x : string) : String.concat sep [x] = x.
Proof. done. Qed.

Lemma urlencode_pair_chars (c : ascii) (kv : string * pyval) :
  query_char c = false → c ≠ "="%char →
  str_free c (urlencode_pair kv) = true.
Proof.
  intros Hc Hne. rewrite urlencode_pair_shape.
  pose proof (query_chars_free c _ Hc (quote_plus_chars (fst kv))) as Hk.
  pose proof (query_chars_free c _ Hc
                (quote_plus_chars (py_str (snd kv)))) as Hv.
  assert (Ascii.eqb "=" c = false) as He
    by (apply Ascii.eqb_neq; congruence).
  unfold str_free in *. rewrite str_forall_app. cbn [str_forall].
  by rewrite Hk, Hv, He.
Qed.

Lemma urlencode_pair_inj (kv1 kv2 : string * pyval) :
  urlencode_pair kv1 = urlencode_pair kv2 →
  fst kv1 = fst kv2 ∧ py_str (snd kv1) = py_str (snd kv2).
Proof.
  rewrite !urlencode_pair_shape. intros H.
  apply split_at_first in H as [Hk Hv];
    [|by apply query_chars_free, quote_plus_chars..].
  by apply quote_plus_inj in Hk, Hv.
Qed.

Lemma urlencode_inj (d1 d2 : dict) :
  urlencode d1 = urlencode d2 → rendered d1 = rendered d2.
Proof.
  unfold urlencode, rendered. revert d2.
  induction d1 as [|p1 t1 IH]; intros [|p2 t2].
  - done.
  - destruct t2; simpl; rewrite urlencode_pair_shape;
      by destruct (quote_plus (fst p2)).
  - destruct t1; simpl; rewrite urlencode_pair_shape;
      by destruct (quote_plus (fst p1)).
  - destruct t1 as [|q1 l1], t2 as [|q2 l2]; cbn [map].
    + rewrite !concat_singleton.
      intros [Hk Hv]%urlencode_pair_inj. cbn. by rewrite Hk, Hv.
    + rewrite concat_cons_cons, concat_singleton. intros H.
      pose proof (urlencode_pair_chars "&" p1 eq_refl ltac:(done)) as Hf.
      rewrite H in Hf. by rewrite (str_free_occurrence "&") in Hf.
    + rewrite concat_cons_cons, concat_singleton. intros H.
      pose proof (urlencode_pair_chars "&" p2 eq_refl ltac:(done)) as Hf.
      rewrite <- H in Hf. by rewrite (str_free_occurrence "&") in Hf.
    + rewrite !concat_cons_cons. intros H.
      apply (split_at_first "&") in H as [Hp Hrest];
        [|by apply urlencode_pair_chars..].
      apply urlencode_pair_inj in Hp as [Hk Hv].
      apply (IH (q2 :: l2)) in Hrest. cbn [map] in Hrest.
      by rewrite Hk, Hv, Hrest.
Qed.

Lemma urlencode_chars (d : dict) :
  str_forall link_char (urlencode d) = true.
Proof.
  assert (∀ kv, str_forall link_char (urlencode_pair kv) = true) as Hpair.
  { intros kv. rewrite urlencode_pair_shape, str_forall_app. simpl.
    rewrite !(str_forall_impl query_char link_char)
      by (apply quote_plus_chars || (intros c Hc; unfold link_char;
                                     by rewrite Hc)).
    done. }
  unfold urlencode. induction d as [|p1 t IH]; [done|].
  destruct t as [|p2 t]; [apply Hpair|].
  cbn [map] in *. rewrite concat_cons_cons, str_forall_app.
  cbn [str_forall]. by rewrite Hpair, IH.
Qed.

Lemma urlencode_free (c : ascii) (d : dict) :
  link_char c = false → str_free c (urlencode d) = true.
Proof.
  intros Hc. apply (str_forall_impl link_char); [|apply urlencode_chars].
  intros x Hx. apply negb_true_iff.
  destruct (Ascii.eqb_spec x c) as [-> |]; congruence.
Qed.

Lemma form_url_inj (pid1 pid2 : string) (params1 params2 : dict) :
  form_url pid1 params1 = form_url pid2 params2 →
  pid1 = pid2 ∧ rendered params1 = rendered params2.
Proof.
  unfold form_url. intros H.
  apply (inj (String.app "https://qiwi.com/payment/form/")) in H.
  change ("?" +:+ ?t) with (String "?" t) in H.
  apply split_at_last in H as [Hp Hq]; [|by apply urlencode_free..].
  split; [done|]. by apply urlencode_inj.
Qed.

Lemma rendered_get (d1 d2 : dict) (k : string) :
  rendered d1 = rendered d2 →
  py_str <$> dict_get k d1 = py_str <$> dict_get k d2.
Proof.
  unfold rendered. revert d2.
  induction d1 as [|[k1 v1] d1 IH]; intros [|[k2 v2] d2]; try done.
  cbn [map fst snd]. intros [= -> Hv Hrest]. simpl.
  destruct (String.eqb k2 k); simpl; [by rewrite Hv|]. by apply IH.
Qed.

(** ** The names of the parameters *)


Lemma dict_set_head (k k0 : string) (v v0 : pyval) (d : dict) :
  k ≠ k0 → dict_set k v ((k0, v0) :: d) = (k0, v0) :: dict_set k v d.
Proof. intros H. simpl. by apply not_eq_sym, String.eqb_neq in H as ->. Qed.






(** ** More on the payment-form link *)

Lemma blocked_accepted_false (blocked : pyseq) :
  blocked_accepted blocked = false ↔
  ∃ entries entry,
    blocked = SList entries ∧ entry ∈ entries ∧ entry ∉ blocked_names.
Proof.
  split.
  - destruct blocked as [entries | | |]; simpl; try done.
    intros H. exists entries.
    induction entries as [|e rest IH]; simpl in H; [done|].
    destruct (allowed_blocked e) eqn:He; simpl in H.
    + destruct (IH H) as (entry & _ & Hin & Hout).
      exists entry. repeat split; [by right | done].
    + exists e. repeat split; [by left|].
      rewrite <- allowed_blocked_names. congruence.
  - intros (entries & entry & -> & Hin & Hout). simpl.
    apply not_true_iff_false. intros Hall.
    rewrite forallb_forall in Hall. apply Hout.
    by apply allowed_blocked_names, Hall, list_elem_of_In.
Qed.

Section FormLinkMore.

Variables ki kf : string.

(** The amount is looked at before the blocked fields: the error of the
    amount is raised exactly above 99999, whatever the blocked fields are,
    and the error of the blocked fields exactly for an amount that is not
    above 99999 with a list that holds a name outside of sum, account and
    comment.  With both at fault it is the error of the amount. *)
Theorem link_outcome (pid : string) (account : pyval) (amount : Q)
    (comment : pyval) (blocked : pyseq) (account_type : pyval) :
  (generate_form_link ki kf pid account amount comment blocked account_type
   = Raise AmountTooLarge ↔ (99999 < amount)%Q)
  ∧ (generate_form_link ki kf pid account amount comment blocked
       account_type = Raise InvalidBlockedField ↔
     (amount <= 99999)%Q ∧
     ∃ entries entry,
       blocked = SList entries ∧ entry ∈ entries ∧ entry ∉ blocked_names).
Proof.
  rewrite <- blocked_accepted_false, <- Qgt_bool_true, <- Qgt_bool_false.
  rewrite generate_form_link_params. unfold generate_form_params.
  destruct (Qgt_bool amount 99999); simpl.
  { split; [done|]. split; [done | by intros [? _]]. }
  destruct (blocked_accepted blocked) eqn:Hb.
  - edestruct attach_blocked_accepted as [d' ->]; [done|]. simpl.
    split; [done|]. split; [done | by intros [_ ?]].
  - rewrite attach_blocked_rejected by done. simpl.
    split; [done|]. split; done.
Qed.


End FormLinkMore.

Lemma sources_list_from_head (name k0 : string) (v0 : pyval)
    (sources : list pyval) :
  (∀ j : nat, name +:+ "[" +:+ pretty j +:+ "]" ≠ k0) →
  ∀ (i : nat) (rest : dict),
    ∃ rest',
      sources_list_from i sources ((k0, v0) :: rest) name = (k0, v0) :: rest'.
Proof.
  intros Hk. induction sources as [|source more IH]; intros i rest; simpl.
  - by eexists.
  - specialize (Hk i). apply String.eqb_neq in Hk as Hk'.
    rewrite String.eqb_sym in Hk'. rewrite Hk'. apply IH.
Qed.

Lemma attach_comment_head (pid : string) (comment v0 : pyval) (rest : dict) :
  ∃ rest',
    attach_comment pid comment (("currency", v0) :: rest)
    = ("currency", v0) :: rest'.
Proof.
  unfold attach_comment.
  case_match; rewrite ?dict_set_head by done; by eexists.
Qed.

Lemma attach_account_head (account v0 : pyval) (rest : dict) :
  ∃ rest',
    attach_account account (("currency", v0) :: rest)
    = ("currency", v0) :: rest'.
Proof.
  unfold attach_account.
  case_match; rewrite ?dict_set_head by done; by eexists.
Qed.

Lemma attach_account_type_head (pid : string) (account_type v0 : pyval)
    (rest : dict) :
  ∃ rest',
    attach_account_type pid account_type (("currency", v0) :: rest)
    = ("currency", v0) :: rest'.
Proof.
  unfold attach_account_type.
  repeat case_match; rewrite ?dict_set_head by done; by eexists.
Qed.

Lemma attach_blocked_head (blocked : pyseq) (v0 : pyval) (rest p : dict) :
  attach_blocked blocked (("currency", v0) :: rest) = Ok p →
  ∃ rest', p = ("currency", v0) :: rest'.
Proof.
  unfold attach_blocked.
  destruct blocked as [entries | | |];
    try (intros [= <-]; by eexists).
  destruct (0 <? length entries)%nat; [|intros [= <-]; by eexists].
  destruct (check_blocked entries); [|done]. intros [= <-].
  apply sources_list_from_head. intros j E.
  by apply (f_equal (String.prefix "blocked")) in E.
Qed.

Section FormLinkShape.

Variables ki kf : string.

(** Whatever the comment and the account hold, the query string of a link is
    made of letters, digits, [_.-~], [+], [%], [=] and [&] only; the provider
    id in front of it is taken as it is. *)
Theorem link_query_characters (pid : string) (account : pyval) (amount : Q)
    (comment : pyval) (blocked : pyseq) (account_type : pyval)
    (url : string) :
  generate_form_link ki kf pid account amount comment blocked account_type
  = Ok url →
  ∃ query,
    url = "https://qiwi.com/payment/form/" +:+ pid +:+ "?" +:+ query
    ∧ str_forall link_char query = true.
Proof.
  intros (params & _ & ->)%generate_form_link_Ok.
  exists (urlencode params). split; [done | apply urlencode_chars].
Qed.

(** Two calls that return the same link were made for the same provider id
    and built the same parameters, name by name and text by text. *)
Theorem link_determines_parameters (pid1 pid2 : string)
    (account1 account2 : pyval) (amount1 amount2 : Q)
    (comment1 comment2 : pyval) (blocked1 blocked2 : pyseq)
    (account_type1 account_type2 : pyval) (url : string) :
  generate_form_link ki kf pid1 account1 amount1 comment1 blocked1
    account_type1 = Ok url →
  generate_form_link ki kf pid2 account2 amount2 comment2 blocked2
    account_type2 = Ok url →
  pid1 = pid2
  ∧ ∃ params1 params2,
      generate_form_params ki kf pid1 account1 amount1 comment1 blocked1
        account_type1 = Ok params1
      ∧ generate_form_params ki kf pid2 account2 amount2 comment2 blocked2
          account_type2 = Ok params2
      ∧ rendered params1 = rendered params2.
Proof.
  intros (params1 & Hok1 & ->)%generate_form_link_Ok.
  intros (params2 & Hok2 & [Hpid Hr]%form_url_inj)%generate_form_link_Ok.
  split; [done|]. by exists params1, params2.
Qed.

Hypothesis keys_apart : amount_keys_apart ki kf = true.

(** A link tells whether an account was given and which text it had, and
    for the provider "99" the same of the comment. *)
Theorem link_determines_extras (pid : string) (account1 account2 : pyval)
    (amount1 amount2 : Q) (comment1 comment2 : pyval)
    (blocked1 blocked2 : pyseq) (account_type1 account_type2 : pyval)
    (url : string) :
  generate_form_link ki kf pid account1 amount1 comment1 blocked1
    account_type1 = Ok url →
  generate_form_link ki kf pid account2 amount2 comment2 blocked2
    account_type2 = Ok url →
  truthy account1 = truthy account2
  ∧ (truthy account1 = true → py_str account1 = py_str account2)
  ∧ (pid = "99" →
     truthy comment1 = truthy comment2
     ∧ (truthy comment1 = true → py_str comment1 = py_str comment2)).
Proof.
  intros (params1 & Hok1 & ->)%generate_form_link_Ok.
  intros (params2 & Hok2 & [_ Hr]%form_url_inj)%generate_form_link_Ok.
  pose proof (rendered_get _ _ "extra['account']" Hr) as Ha.
  pose proof (rendered_get _ _ "extra['comment']" Hr) as Hc.
  rewrite (params_account _ _ keys_apart _ _ _ _ _ _ _ Hok1),
    (params_account _ _ keys_apart _ _ _ _ _ _ _ Hok2) in Ha.
  rewrite (params_comment _ _ keys_apart _ _ _ _ _ _ _ Hok1),
    (params_comment _ _ keys_apart _ _ _ _ _ _ _ Hok2) in Hc.
  split; [by destruct (truthy account1), (truthy account2)|].
  split.
  { intros E. rewrite E in Ha. destruct (truthy account2); [|done].
    by injection Ha. }
  intros ->. simpl in Hc.
  split; [by destruct (truthy comment1), (truthy comment2)|].
  intros E. rewrite E in Hc. destruct (truthy comment2); [|done].
  by injection Hc.
Qed.

(** The currency of a link is always 643, and it is the first parameter. *)
Theorem link_currency_first (pid : string) (account : pyval) (amount : Q)
    (comment : pyval) (blocked : pyseq) (account_type : pyval)
    (url : string) :
  generate_form_link ki kf pid account amount comment blocked account_type
  = Ok url →
  ∃ params tail,
    url = form_url pid (("currency", PInt 643) :: params)
    ∧ url = "https://qiwi.com/payment/form/" +:+ pid +:+ "?currency=643"
            +:+ tail.
Proof.
  intros (params & Hok & ->)%generate_form_link_Ok.
  assert (∃ rest, params = ("currency", PInt 643) :: rest) as [rest ->].
  { apply generate_form_params_inv in Hok as (_ & p & Hp & ->).
    rewrite initial_params in Hp by done.
    edestruct attach_comment_head as [rest1 E1]. rewrite E1 in Hp.
    edestruct attach_account_head as [rest2 E2]. rewrite E2 in Hp.
    edestruct attach_blocked_head as [rest3 E3]; [exact Hp|]. subst p.
    apply attach_account_type_head. }
  exists rest. destruct rest as [|p2 rest].
  - exists "". split; [done|]. unfold form_url, urlencode. simpl map.
    rewrite concat_singleton. by rewrite str_app_nil_r.
  - exists (String "&" (String.concat "&" (map urlencode_pair (p2 :: rest)))).
    split; [done|]. unfold form_url, urlencode. cbn [map].
    rewrite concat_cons_cons.
    by change (urlencode_pair ("currency", PInt 643)) with "currency=643".
Qed.

(** An account type is in the link exactly for the provider "99999" with an
    account type that equals 0 or 1 or is a string; any other account type
    is left out without an error. *)
Theorem account_type_presence (pid : string) (account : pyval) (amount : Q)
    (comment : pyval) (blocked : pyseq) (account_type : pyval)
    (url : string) :
  generate_form_link ki kf pid account amount comment blocked account_type
  = Ok url →
  ∃ params,
    url = form_url pid params
    ∧ (is_Some (dict_get "extra['accountType']" params) ↔
       pid = "99999" ∧
       (py_eq_int account_type 0 = true ∨ py_eq_int account_type 1 = true
        ∨ is_str account_type = true)).
Proof.
  intros (params & Hok & ->)%generate_form_link_Ok.
  exists params. split; [done|].
  rewrite (params_account_type _ _ keys_apart _ _ _ _ _ _ _ Hok).
  destruct (String.eqb_spec pid "99999") as [-> | Hne].
  - destruct (py_eq_int account_type 0);
      [split; [intros _; split; auto | intros _; by eexists]|].
    destruct (py_eq_int account_type 1);
      [split; [intros _; split; auto | intros _; by eexists]|].
    destruct (is_str account_type);
      [split; [intros _; split; auto | intros _; by eexists]|].
    split; [by intros [? [=]] | by intros (_ & [? | [? | ?]])].
  - split; [by intros [? [=]] | by intros [? _]].
Qed.

End FormLinkShape.

(** ** More on the number of the wallet *)

Lemma without_char_fixed (c : ascii) (s : string) :
  c ∉ String.list_ascii_of_string s → without_char c s = s.
Proof.
  unfold without_char. induction s as [|a s IH]; [done|].
  cbn [String.list_ascii_of_string]. intros Hc.
  apply not_elem_of_cons in Hc as [Hne Hc].
  rewrite filter_cons, decide_True by done. cbn. by rewrite IH.
Qed.

(** The number that the branch stores is in its final form: storing it again
    changes nothing, and it never begins with 8. *)
Theorem number_normalisation_idempotent (s t : string) :
  init_number (PStr s) = Some t →
  init_number (PStr t) = Some t ∧ String.prefix "8" t = false.
Proof.
  unfold init_number. rewrite !str_replace_without.
  pose proof (without_char_free "+" s) as Hfree.
  destruct (String.prefix "8" (without_char "+" s)) eqn:Hp;
    intros [= <-].
  - destruct (without_char "+" s) as [|a r]; [done|].
    assert (without_char "+" ("7" +:+ str_tail (String a r))
            = "7" +:+ str_tail (String a r)) as ->; [|done].
    apply without_char_fixed. cbn.
    intros [? | ?]%elem_of_cons; [done|]. apply Hfree. cbn. by right.
  - rewrite (without_char_fixed "+" (without_char "+" s)) by done.
    by rewrite Hp.
Qed.

(** ** More on the balance *)

(** The lookup over two lists of accounts, one after the other, is the
    lookup over the first and, when that finds nothing, over the second. *)
Theorem balance_app (accounts1 accounts2 : list Account.t) (cur : Z) :
  balance (accounts1 ++ accounts2) cur
  = match balance accounts1 cur with
    | Ok amount => Ok amount
    | Raise _ => balance accounts2 cur
    end.
Proof.
  induction accounts1 as [|account rest IH]; simpl; [done|].
  by destruct (_ && _).
Qed.

(** The accounts of the other currencies have no part in the balance:
    without them the lookup gives the same. *)
Theorem balance_other_currencies (accounts : list Account.t) (cur : Z) :
  balance (filter (λ account, Account.currency account = cur) accounts) cur
  = balance accounts cur.
Proof.
  induction accounts as [|account rest IH]; [done|].
  rewrite filter_cons. destruct (decide (Account.currency account = cur))
    as [E | N]; simpl.
  - by rewrite IH.
  - apply Z.eqb_neq in N as ->. simpl. apply IH.
Qed.

(** ** The loops over a response *)

Section DecodingFacts.

Context {T : Type}.
Variable de_json : jnode → outcome T.

Lemma decode_loop_Return (items : list jnode) :
  ∀ (acc l : list T),
    decode_loop de_json items acc = Return l ↔
    ∃ l', l = acc ++ l'
          ∧ Forall2 (λ item x, de_json item = Return x) items l'.
Proof.
  induction items as [|item rest IH]; intros acc l; simpl.
  - split.
    + intros [= <-]. exists []. by rewrite app_nil_r.
    + intros (l' & -> & ->%Forall2_nil_inv_l). by rewrite app_nil_r.
  - destruct (de_json item) as [x | e] eqn:E; simpl.
    + rewrite IH. split.
      * intros (l' & -> & H). exists (x :: l').
        rewrite <- app_assoc. split; [done | by constructor].
      * intros (l' & -> & H).
        apply Forall2_cons_inv_l in H as (y & l'' & Hy & H & ->).
        assert (y = x) as -> by congruence.
        exists l''. by rewrite <- app_assoc.
    + split; [done|]. intros (l' & _ & H).
      apply Forall2_cons_inv_l in H as (y & l'' & Hy & _). congruence.
Qed.

Lemma decode_loop_Throw (items : list jnode) (x : exn) :
  ∀ acc : list T,
    decode_loop de_json items acc = Throw x ↔
    ∃ before item after,
      items = before ++ item :: after
      ∧ Forall (λ i, ∃ y, de_json i = Return y) before
      ∧ de_json item = Throw x.
Proof.
  induction items as [|item rest IH]; intros acc; simpl.
  - split; [done|]. intros (before & ? & ? & E & _). by destruct before.
  - destruct (de_json item) as [y | e] eqn:E; simpl.
    + rewrite IH. split.
      * intros (before & i & after & -> & Hb & Hi).
        exists (item :: before), i, after.
        split; [done|]. split; [constructor; eauto | done].
      * intros (before & i & after & Hs & Hb & Hi).
        destruct before as [|b before]; simplify_eq/=; [congruence|].
        apply Forall_cons in Hb as [_ Hb]. by exists before, i, after.
    + split.
      * intros [= ->]. by exists [], item, rest.
      * intros (before & i & after & Hs & Hb & Hi).
        destruct before as [|b before]; simplify_eq/=; [congruence|].
        apply Forall_cons in Hb as [[y Hy] _]. congruence.
Qed.

Lemma decode_each_Return (v : jnode) (l : list T) :
  decode_each de_json v = Return l ↔
  ∃ items, py_iter v = Return items
           ∧ Forall2 (λ item x, de_json item = Return x) items l.
Proof.
  unfold decode_each.
  destruct (py_iter v) as [items | e]; simpl.
  - rewrite decode_loop_Return. split.
    + intros (l' & -> & H). by exists items.
    + intros (items' & [= <-] & H). by exists l.
  - split; [done | by intros (? & [=] & _)].
Qed.

Lemma decoded_unique (items : list jnode) (l1 l2 : list T) :
  Forall2 (λ item x, de_json item = Return x) items l1 →
  Forall2 (λ item x, de_json item = Return x) items l2 →
  l1 = l2.
Proof.
  intros H1. revert l2.
  induction H1 as [|item x items l1 Hx _ IH]; intros l2 H2;
    inversion H2; subst; [done|].
  f_equal; [congruence | by apply IH].
Qed.

(** The accounts, the rates and the offered accounts come out one for one
    and in the order of the response: the list is returned exactly when
    the key is there (accounts, result), its value can be iterated, and
    every item decodes, item number [i] to entry number [i]. *)
Theorem decoded_in_order (result_json : gmap string jnode)
    (offer : jnode) (l : list T) :
  (Wallet_accounts de_json result_json = Return l ↔
   ∃ v items,
     result_json !! "accounts" = Some v ∧ py_iter v = Return items
     ∧ Forall2 (λ item x, de_json item = Return x) items l)
  ∧ (Wallet_cross_rates de_json result_json = Return l ↔
     ∃ v items,
       result_json !! "result" = Some v ∧ py_iter v = Return items
       ∧ Forall2 (λ item x, de_json item = Return x) items l)
  ∧ (Wallet_offered_accounts de_json offer = Return l ↔
     ∃ items,
       py_iter offer = Return items
       ∧ Forall2 (λ item x, de_json item = Return x) items l).
Proof.
  pose proof (λ v, decode_each_Return v l) as Heach.
  unfold Wallet_accounts, Wallet_cross_rates, Wallet_offered_accounts,
    py_getitem.
  split; [|split; [|apply Heach]].
  - destruct (result_json !! "accounts") as [v|]; simpl.
    + rewrite Heach. split.
      * intros (items & ? & ?). by exists v, items.
      * intros (v' & items & [= <-] & ? & ?). by exists items.
    + split; [done | by intros (? & ? & [=] & _)].
  - destruct (result_json !! "result") as [v|]; simpl.
    + rewrite Heach. split.
      * intros (items & ? & ?). by exists v, items.
      * intros (v' & items & [= <-] & ? & ?). by exists items.
    + split; [done | by intros (? & ? & [=] & _)].
Qed.

(** The accounts fail in three ways: without the key accounts it is the
    [KeyError] of that key; over a value that cannot be iterated it is a
    [TypeError]; otherwise it is the exception of the first item that does
    not decode, and what the items after it hold does not matter. *)
Theorem accounts_failure (result_json : gmap string jnode) (x : exn) :
  Wallet_accounts de_json result_json = Throw x ↔
  (result_json !! "accounts" = None ∧ x = KeyError "accounts")
  ∨ ∃ v,
      result_json !! "accounts" = Some v
      ∧ ((py_iter v = Throw x ∧ x = TypeError)
         ∨ ∃ before item after,
             py_iter v = Return (before ++ item :: after)
             ∧ Forall (λ i, ∃ y, de_json i = Return y) before
             ∧ de_json item = Throw x).
Proof.
  unfold Wallet_accounts, py_getitem.
  destruct (result_json !! "accounts") as [v|]; simpl.
  - unfold decode_each. split.
    + intros H. right. exists v. split; [done|].
      destruct (py_iter v) as [items | e] eqn:E; simpl in H.
      * right. apply decode_loop_Throw in H
          as (before & item & after & -> & ? & ?).
        by exists before, item, after.
      * left. injection H as ->. split; [done|].
        destruct v as [[] | |]; simpl in E; congruence.
    + intros [[[=] _] | (v' & [= <-] & [[-> _] | H])]; [done|].
      destruct H as (before & item & after & -> & ? & ?). simpl.
      apply decode_loop_Throw. by exists before, item, after.
  - split.
    + intros [= <-]. by left.
    + intros [[_ ->] | (? & [=] & _)]. done.
Qed.

End DecodingFacts.

(** ** The history *)

Section HistoryFacts.

Context {T D : Type}.
Variable Transaction_de_json : jnode → outcome T.
Variable decode_date : jnode → outcome D.

(** A history is returned exactly when the key data is there, its value
    can be iterated, every item decodes and the date of the next page, if
    there is one, decodes.  The transactions are the items one for one and
    in their order, the number of the next page is passed on as it came, and
    the date of the next page is [None] exactly when the response has none
    or has it as null. *)
Theorem history_returned (result_json : gmap string jnode)
    (h : History T D) :
  Wallet_history Transaction_de_json decode_date result_json = Return h ↔
  ∃ v items,
    result_json !! "data" = Some v ∧ py_iter v = Return items
    ∧ Forall2 (λ item x, Transaction_de_json item = Return x) items
        (transactions h)
    ∧ next_txn_id h = default (JLeaf JNull) (result_json !! "nextTxnId")
    ∧ match result_json !! "nextTxnDate" with
      | None | Some (JLeaf JNull) => next_txn_date h = None
      | Some date =>
          ∃ d, decode_date date = Return d ∧ next_txn_date h = Some d
      end.
Proof.
  unfold Wallet_history, py_getitem, py_get.
  destruct (result_json !! "data") as [v|]; simpl;
    [|split; [done | by intros (? & ? & [=] & _)]].
  destruct (decode_each Transaction_de_json v) as [txs | e] eqn:Htx; simpl.
  2:{ split; [done|].
      intros (v' & items & [= <-] & Hit & Hall & _).
      assert (decode_each Transaction_de_json v = Return (transactions h))
        as H; [|congruence].
      apply decode_each_Return. by exists items. }
  apply decode_each_Return in Htx as (items & Hit & Hall).
  assert (∀ ntd,
    Return {| transactions := txs; next_txn_date := ntd;
              next_txn_id :=
                default (JLeaf JNull) (result_json !! "nextTxnId") |}
    = Return h ↔
    ∃ v' items',
      Some v = Some v' ∧ py_iter v' = Return items'
      ∧ Forall2 (λ item x, Transaction_de_json item = Return x) items'
          (transactions h)
      ∧ next_txn_id h
        = default (JLeaf JNull) (result_json !! "nextTxnId")
      ∧ next_txn_date h = ntd) as Hrec.
  { intros ntd. destruct h as [t n i]; simpl. split.
    - intros [= <- <- <-]. by exists v, items.
    - intros (v' & items' & [= <-] & Hit' & Hall' & -> & ->).
      assert (items' = items) as -> by congruence.
      by rewrite (decoded_unique _ _ _ _ Hall Hall'). }
  destruct (result_json !! "nextTxnDate") as [date|] eqn:Hd; simpl;
    [|apply Hrec].
  destruct (is_None date) eqn:Hn; simpl.
  { destruct date as [[] | |]; try done; apply Hrec. }
  assert (∀ P : Prop,
    match date with
    | JLeaf JNull => P
    | _ => ∃ d, decode_date date = Return d ∧ next_txn_date h = Some d
    end ↔ ∃ d, decode_date date = Return d ∧ next_txn_date h = Some d)
    as Hm by (intros P; by destruct date as [[] | |]).
  setoid_rewrite Hm.
  destruct (decode_date date) as [d | e] eqn:Hdd; simpl.
  - rewrite Hrec. split.
    + intros (v' & items' & ? & ? & ? & ? & ?).
      exists v', items'. repeat split; try done. by exists d.
    + intros (v' & items' & ? & ? & ? & ? & d' & [= <-] & ?).
      by exists v', items'.
  - split; [done|]. by intros (? & ? & _ & _ & _ & _ & ? & [=] & _).
Qed.

End HistoryFacts.

Section HistoryFailure.

Context {T D : Type}.
Variable Transaction_de_json : jnode → outcome T.

(** Without the key data the history is the [KeyError] of that key; a date
    of the next page that does not decode fails the whole history, also
    when every transaction is decoded; and a date that is missing or null is
    never handed to the decoder of dates: the history does not depend on
    it. *)
Theorem history_failure (decode_date decode_date' : jnode → outcome D)
    (result_json : gmap string jnode) :
  (result_json !! "data" = None →
   Wallet_history Transaction_de_json decode_date result_json
   = Throw (KeyError "data"))
  ∧ (∀ v txs date x,
       result_json !! "data" = Some v →
       decode_each Transaction_de_json v = Return txs →
       result_json !! "nextTxnDate" = Some date → is_None date = false →
       decode_date date = Throw x →
       Wallet_history Transaction_de_json decode_date result_json
       = Throw x)
  ∧ (is_None (default (JLeaf JNull) (result_json !! "nextTxnDate")) = true →
     Wallet_history Transaction_de_json decode_date result_json
     = Wallet_history Transaction_de_json decode_date' result_json).
Proof.
  unfold Wallet_history, py_getitem, py_get. repeat split.
  - by intros ->.
  - intros v txs date x Hv Htx Hdate Hn Hd.
    rewrite Hv. simpl. rewrite Htx. simpl. rewrite Hdate. simpl.
    by rewrite Hn, Hd.
  - by intros ->.
Qed.

End HistoryFailure.

(** ** The balance, from the response on *)

(** The balance is looked up only after every account of the response is
    decoded: it is returned exactly when the key accounts is there, all its
    items decode and the lookup over the decoded accounts finds an amount;
    an item that does not decode fails the call with its exception, also
    when an account before it has a usable balance. *)
Theorem balance_of_response (Account_de_json : jnode → outcome Account.t)
    (result_json : gmap string jnode) (cur : Z) :
  (∀ amount,
     Wallet_balance Account_de_json result_json cur = Return amount ↔
     ∃ v items accounts,
       result_json !! "accounts" = Some v ∧ py_iter v = Return items
       ∧ Forall2 (λ item a, Account_de_json item = Return a) items accounts
       ∧ balance accounts cur = Ok amount)
  ∧ (∀ v before item after x,
       result_json !! "accounts" = Some v →
       py_iter v = Return (before ++ item :: after) →
       Forall (λ i, ∃ a, Account_de_json i = Return a) before →
       Account_de_json item = Throw x →
       Wallet_balance Account_de_json result_json cur = Throw x)
  ∧ (result_json !! "accounts" = None →
     Wallet_balance Account_de_json result_json cur
     = Throw (KeyError "accounts")).
Proof.
  unfold Wallet_balance, Wallet_accounts, py_getitem. repeat split.
  - destruct (result_json !! "accounts") as [v|]; simpl; [|done].
    destruct (decode_each Account_de_json v) as [accounts | e] eqn:E;
      simpl; [|done].
    apply decode_each_Return in E as (items & ? & ?).
    destruct (balance accounts cur) eqn:Hb; intros [= <-].
    by exists v, items, accounts.
  - intros (v & items & accounts & -> & Hit & Hall & Hb). simpl.
    assert (decode_each Account_de_json v = Return accounts) as ->
      by (apply decode_each_Return; by exists items).
    simpl. by rewrite Hb.
  - intros v before item after x -> Hit Hb Hx. simpl.
    unfold decode_each. rewrite Hit. simpl.
    assert (decode_loop Account_de_json (before ++ item :: after) []
            = Throw x) as ->; [|done].
    apply decode_loop_Throw. by exists before, item, after.
  - by intros ->.
Qed.

(** ** The dates of the statistics *)

Lemma tuple_le_trans (a : list Z) :
  ∀ b c, tuple_le a b = true → tuple_le b c = true → tuple_le a c = true.
Proof.
  induction a as [|x a IH]; intros [|y b] [|z c]; simpl; try done.
  rewrite !orb_true_iff, !andb_true_iff, !Z.ltb_lt, !Z.eqb_eq.
  intros [? | [-> ?]] [? | [-> ?]]; eauto with lia.
Qed.

Lemma replaced_start_le (now : datetime) :
  datetime_from_below now →
  datetime_le (replace_day_hour_minute_second now) now = true
  ↔ ¬ first_second_of_month now.
Proof.
  unfold datetime_from_below, first_second_of_month, datetime_le,
    datetime_fields, replace_day_hour_minute_second.
  cbn [tuple_le year month day hour minute second microsecond].
  intros (Hd & Hh & Hm & Hs).
  rewrite !Z.ltb_irrefl, !Z.eqb_refl. cbn [orb andb].
  rewrite !orb_true_iff, !andb_true_iff, !orb_true_iff, !Z.ltb_lt,
    !Z.eqb_eq.
  lia.
Qed.

(** Dates that the caller gives are asked for as they are, and the clock is
    not read.  Without dates the statistics are asked from the first day of
    the month of the first reading, at 00:00:01, to the second reading.  On a
    clock that does not run backwards this start is not after the end unless
    the first reading lies in the first second of a month; when both
    readings lie in that second, the start is after the end. *)
Theorem stat_default_range {Stat Proxy : Type}
    (api_total_payment_history :
       string → string → datetime → datetime → pyval → pyval → Proxy →
       gmap string jnode)
    (Statistics_de_json : gmap string jnode → outcome Stat)
    (clock : nat → datetime) (tick : nat) (token number : string)
    (proxy : Proxy) (operation sources : pyval) :
  let now0 := clock tick in
  let now1 := clock (S tick) in
  let start := replace_day_hour_minute_second now0 in
  (∀ s e,
     Wallet_stat api_total_payment_history Statistics_de_json clock tick
       token number proxy (Some s) (Some e) operation sources
     = (Statistics_de_json
          (api_total_payment_history token number s e operation sources
             proxy), tick))
  ∧ Wallet_stat api_total_payment_history Statistics_de_json clock tick
      token number proxy None None operation sources
    = (Statistics_de_json
         (api_total_payment_history token number start now1 operation
            sources proxy), S (S tick))
  ∧ (datetime_from_below now0 →
     (datetime_le start now0 = true ↔ ¬ first_second_of_month now0))
  ∧ (datetime_from_below now0 → datetime_le now0 now1 = true →
     ¬ first_second_of_month now0 → datetime_le start now1 = true)
  ∧ (first_second_of_month now0 → first_second_of_month now1 →
     year now0 = year now1 → month now0 = month now1 →
     datetime_le start now1 = false).
Proof.
  intros now0 now1 start. split; [done|]. split; [done|].
  split; [apply replaced_start_le|]. split.
  - intros Hb Hle Hn. apply (tuple_le_trans _ (datetime_fields now0)); [|done].
    by apply replaced_start_le.
  - unfold first_second_of_month, datetime_le, datetime_fields. subst start.
    unfold replace_day_hour_minute_second.
    cbn [tuple_le year month day hour minute second microsecond].
    intros (_ & _ & _ & _) (-> & -> & -> & ->) -> ->.
    by rewrite !Z.ltb_irrefl, !Z.eqb_refl.
Qed.

(** ** The further statements at work *)


Lemma link_query_characters_witness :
  generate_form_link "amountInteger" "amountFraction" "99" (PStr "5")
    (201 # 2) (PStr "a b&c=d") (SList [PStr "sum"]) PNone
  = Ok ("https://qiwi.com/payment/form/99?currency=643&amountInteger=100"
        +:+ "&amountFraction=50&extra%5B%27comment%27%5D=a+b%26c%3Dd"
        +:+ "&extra%5B%27account%27%5D=5&blocked%5B0%5D=sum")
  ∧ ∃ query,
      "https://qiwi.com/payment/form/99?currency=643&amountInteger=100"
        +:+ "&amountFraction=50&extra%5B%27comment%27%5D=a+b%26c%3Dd"
        +:+ "&extra%5B%27account%27%5D=5&blocked%5B0%5D=sum"
      = "https://qiwi.com/payment/form/" +:+ "99" +:+ "?" +:+ query
      ∧ str_forall link_char query = true.
Proof.
  split; [vm_compute; reflexivity|].
  apply (link_query_characters "amountInteger" "amountFraction" "99"
           (PStr "5") (201 # 2) (PStr "a b&c=d") (SList [PStr "sum"]) PNone).
  vm_compute; reflexivity.
Defined.

Lemma link_determines_parameters_witness :
  generate_form_link "amountInteger" "amountFraction" "99" (PStr "5")
    (201 # 2) (PStr "hi") (SScalar PNone) PNone
  = Ok ("https://qiwi.com/payment/form/99?currency=643&amountInteger=100"
        +:+ "&amountFraction=50&extra%5B%27comment%27%5D=hi"
        +:+ "&extra%5B%27account%27%5D=5")
  ∧ generate_form_link "amountInteger" "amountFraction" "99" (PInt 5)
      (100509 # 1000) (PStr "hi") (STuple [PStr "nope"]) (PInt 1)
    = Ok ("https://qiwi.com/payment/form/99?currency=643&amountInteger=100"
          +:+ "&amountFraction=50&extra%5B%27comment%27%5D=hi"
          +:+ "&extra%5B%27account%27%5D=5")
  ∧ "99" = "99"
  ∧ ∃ params1 params2,
      generate_form_params "amountInteger" "amountFraction" "99" (PStr "5")
        (201 # 2) (PStr "hi") (SScalar PNone) PNone = Ok params1
      ∧ generate_form_params "amountInteger" "amountFraction" "99" (PInt 5)
          (100509 # 1000) (PStr "hi") (STuple [PStr "nope"]) (PInt 1)
        = Ok params2
      ∧ rendered params1 = rendered params2.
Proof.
  split; [vm_compute; reflexivity|]. split; [vm_compute; reflexivity|].
  apply (link_determines_parameters "amountInteger" "amountFraction"
           "99" "99" (PStr "5") (PInt 5) (201 # 2) (100509 # 1000)
           (PStr "hi") (PStr "hi") (SScalar PNone) (STuple [PStr "nope"])
           PNone (PInt 1)
           ("https://qiwi.com/payment/form/99?currency=643"
            +:+ "&amountInteger=100&amountFraction=50"
            +:+ "&extra%5B%27comment%27%5D=hi"
            +:+ "&extra%5B%27account%27%5D=5"));
    vm_compute; reflexivity.
Defined.

Lemma link_determines_extras_witness :
  generate_form_link "amountInteger" "amountFraction" "99" (PStr "5")
    (201 # 2) (PStr "hi") (SScalar PNone) PNone
  = Ok ("https://qiwi.com/payment/form/99?currency=643&amountInteger=100"
        +:+ "&amountFraction=50&extra%5B%27comment%27%5D=hi"
        +:+ "&extra%5B%27account%27%5D=5")
  ∧ generate_form_link "amountInteger" "amountFraction" "99" (PInt 5)
      (100509 # 1000) (PStr "hi") (STuple [PStr "nope"]) (PInt 1)
    = Ok ("https://qiwi.com/payment/form/99?currency=643&amountInteger=100"
          +:+ "&amountFraction=50&extra%5B%27comment%27%5D=hi"
          +:+ "&extra%5B%27account%27%5D=5")
  ∧ truthy (PStr "5") = truthy (PInt 5)
  ∧ (truthy (PStr "5") = true → py_str (PStr "5") = py_str (PInt 5))
  ∧ ("99" = "99" →
     truthy (PStr "hi") = truthy (PStr "hi")
     ∧ (truthy (PStr "hi") = true → py_str (PStr "hi") = py_str (PStr "hi"))).
Proof.
  split; [vm_compute; reflexivity|]. split; [vm_compute; reflexivity|].
  apply (link_determines_extras "amountInteger" "amountFraction" eq_refl
           "99" (PStr "5") (PInt 5) (201 # 2) (100509 # 1000)
           (PStr "hi") (PStr "hi") (SScalar PNone) (STuple [PStr "nope"])
           PNone (PInt 1)
           ("https://qiwi.com/payment/form/99?currency=643"
            +:+ "&amountInteger=100&amountFraction=50"
            +:+ "&extra%5B%27comment%27%5D=hi"
            +:+ "&extra%5B%27account%27%5D=5"));
    vm_compute; reflexivity.
Defined.

Lemma link_currency_first_witness :
  generate_form_link "amountInteger" "amountFraction" "1" PNone 1 PNone
    (SScalar PNone) PNone
  = Ok ("https://qiwi.com/payment/form/1?currency=643&amountInteger=1"
        +:+ "&amountFraction=0")
  ∧ ∃ params tail,
      "https://qiwi.com/payment/form/1?currency=643&amountInteger=1"
        +:+ "&amountFraction=0"
      = form_url "1" (("currency", PInt 643) :: params)
      ∧ "https://qiwi.com/payment/form/1?currency=643&amountInteger=1"
          +:+ "&amountFraction=0"
        = "https://qiwi.com/payment/form/" +:+ "1" +:+ "?currency=643"
          +:+ tail.
Proof.
  split; [vm_compute; reflexivity|].
  apply (link_currency_first "amountInteger" "amountFraction" eq_refl "1"
           PNone 1 PNone (SScalar PNone) PNone).
  vm_compute; reflexivity.
Defined.

Lemma account_type_presence_witness :
  generate_form_link "amountInteger" "amountFraction" "99999" (PStr "nick")
    10 PNone (SScalar PNone) (PInt 2)
  = Ok ("https://qiwi.com/payment/form/99999?currency=643&amountInteger=10"
        +:+ "&amountFraction=0&extra%5B%27account%27%5D=nick")
  ∧ ∃ params,
      "https://qiwi.com/payment/form/99999?currency=643&amountInteger=10"
        +:+ "&amountFraction=0&extra%5B%27account%27%5D=nick"
      = form_url "99999" params
      ∧ (is_Some (dict_get "extra['accountType']" params) ↔
         "99999" = "99999" ∧
         (py_eq_int (PInt 2) 0 = true ∨ py_eq_int (PInt 2) 1 = true
          ∨ is_str (PInt 2) = true)).
Proof.
  split; [vm_compute; reflexivity|].
  apply (account_type_presence "amountInteger" "amountFraction" eq_refl
           "99999" (PStr "nick") 10 PNone (SScalar PNone) (PInt 2)).
  vm_compute; reflexivity.
Defined.

Lemma number_normalisation_idempotent_witness :
  init_number (PStr "+8999+1234567") = Some "79991234567"
  ∧ init_number (PStr "79991234567") = Some "79991234567"
  ∧ String.prefix "8" "79991234567" = false.
Proof.
  split; [reflexivity|].
  apply (number_normalisation_idempotent "+8999+1234567"). reflexivity.
Defined.

(** A response with two rates, decoded by their length as objects, and one
    that lacks the key. *)
Example rates_in_order :
  Wallet_cross_rates
    (λ v, match v with
          | JObj fields => Return (length fields)
          | _ => Throw TypeError
          end)
    {[ "result" :=
         JArr [JObj [("from", JLeaf (JStr "643"))];
               JObj [("from", JLeaf (JStr "840"));
                     ("rate", JLeaf (JNum (3 # 2)))]] ]}
  = Return [1%nat; 2%nat]
  ∧ Wallet_cross_rates (λ v, Return v) ∅ = Throw (KeyError "result").
Proof. split; reflexivity. Qed.

(** The second account does not decode: the balance of the first one, which
    is usable, is not returned. *)
Example balance_needs_all_accounts :
  Wallet_balance
    (λ v, match v with
          | JObj _ =>
              Return {| Account.alias := "qw_wallet_rub";
                        Account.currency := 643;
                        Account.balance := Some {[ "amount" := JNum 7 ]} |}
          | _ => Throw TypeError
          end)
    {[ "accounts" := JArr [JObj []; JLeaf JNull] ]} 643
  = Throw TypeError.
Proof. reflexivity. Qed.

(** A history of one transaction whose response has no date of a next
    page. *)
Example history_without_next_page :
  Wallet_history (λ v, Return v)
    (λ v, Throw TypeError : outcome nat)
    {[ "data" := JArr [JLeaf (JStr "txn")] ]}
  = Return {| transactions := [JLeaf (JStr "txn")];
              next_txn_date := None;
              next_txn_id := JLeaf JNull |}.
Proof. reflexivity. Qed.

(** In the first second of November the statistics of the month are asked
    from a date that is after their end. *)
Example stat_in_first_second :
  let now :=
    {| year := 2026; month := 11; day := 1; hour := 0; minute := 0;
       second := 0; microsecond := 500000 |} in
  stat_dates (λ _, now) 0 None None
  = ({| year := 2026; month := 11; day := 1; hour := 0; minute := 0;
        second := 1; microsecond := 500000 |}, now, 2%nat)
  ∧ datetime_le (fst (fst (stat_dates (λ _, now) 0 None None))) now = false.
Proof. split; reflexivity. Qed.

(** The slice [s[1:]] takes a whole character off, also one of two
    bytes. *)
Example slices_from_1 :
  str_from_1 "79991234567" = "9991234567"
  ∧ str_from_1 "é5" = "5"
  ∧ str_from_1 "" = "".
Proof. repeat split. Qed.

(** A phone whose provider is found, and one whose provider is not. *)
Example mobile_payments :
  Wallet_mobile tt (λ phone _, if String.prefix "7999" phone
                                then PStr "1" else PNone)
    (λ _ pid _ recipient _ _ _, {[ "pid" := JLeaf (JStr (py_str pid));
                                   "to" := JLeaf (JStr (py_str recipient)) ]})
    (λ r, Return r) "token" tt "79991234567" 100
  = Return {[ "pid" := JLeaf (JStr "1");
              "to" := JLeaf (JStr "9991234567") ]}
  ∧ Wallet_mobile tt (λ phone _, if String.prefix "7999" phone
                                  then PStr "1" else PNone)
      (λ _ pid _ recipient _ _ _, {[ "pid" := JLeaf (JStr (py_str pid)) ]})
      (λ r, Return r) "token" tt "70001234567" 100
    = Throw ProviderNotDetected.
Proof. split; reflexivity. Qed.
